(** * PsiNet verification core: ledger, capability tokens and payment gate

    A shallow embedding of [src/python/psinet_core.py] and
    [src/python/psinet_payment.py].

    Conventions of the embedding.
    - A Python [dict] is an association list with distinct keys kept in
      insertion order ([PyDict]), since several loops of the source stop
      at the first entry that matches.
    - A call that may raise returns an [outcome].
    - [datetime.utcnow()] is an input of every operation that reads the
      clock: a naive instant counted in microseconds ([Z]).
    - A field documented as "Decimal as string" is held as the finite
      [decimal.Decimal] it denotes (coefficient and exponent);
      [str(Decimal(..))] and [Decimal(str)] are inverse on those, so the
      text is not kept.  Arithmetic follows the default context: 28
      significant digits, ROUND_HALF_EVEN.  The exponent limits of the
      context (one million digits away) are not modelled.
    - An ISO timestamp field is held as the instant it names together
      with the flag telling whether the text ends in "Z": the two
      shapes the program writes ([isoformat()] and [isoformat() + "Z"]).
    - [hashlib.sha256(..).hexdigest()], the Ed25519 signature and the
      text of [isoformat()] are parameters of the development. *)

From Stdlib Require Import ZArith QArith Qpower List String Ascii Bool Lia.
From Stdlib Require Import DecimalString Permutation.
Import ListNotations.

Local Open Scope string_scope.
Local Open Scope Z_scope.

(** ** Results of calls that may raise *)

Inductive exn : Type :=
| RuntimeError (msg : string)
| TypeError (msg : string)
| ValueError (msg : string).

Inductive outcome (A : Type) : Type :=
| Ok (a : A)
| Raise (e : exn).

Arguments Ok {A} a.
Arguments Raise {A} e.

Definition bind {A B : Type} (o : outcome A) (k : A -> outcome B) : outcome B :=
  match o with
  | Ok a => k a
  | Raise e => Raise e
  end.

Notation "x <- o ;; k" := (bind o (fun x => k))
  (at level 61, o at next level, right associativity).

Definition raises {A : Type} (o : outcome A) : Prop :=
  match o with
  | Ok _ => False
  | Raise _ => True
  end.

(** Truthiness of an [Optional[str]]: [None] and the empty string are
    falsy. *)
Definition truthy (o : option string) : bool :=
  match o with
  | None => false
  | Some s => negb (String.eqb s "")
  end.

Definition is_some {A : Type} (o : option A) : bool :=
  match o with
  | Some _ => true
  | None => false
  end.

Definition opt_str_eqb (a b : option string) : bool :=
  match a, b with
  | None, None => true
  | Some x, Some y => String.eqb x y
  | _, _ => false
  end.

(** ** Python dictionaries *)

Module PyDict.

Definition t (V : Type) : Type := list (string * V).

(** [d.get(k)], also [d[k]] after a membership test. *)
Fixpoint get {V : Type} (k : string) (d : t V) : option V :=
  match d with
  | [] => None
  | (k', v) :: d' => if String.eqb k k' then Some v else get k d'
  end.

(** [k in d]. *)
Definition mem {V : Type} (k : string) (d : t V) : bool :=
  match get k d with
  | Some _ => true
  | None => false
  end.

(** [d[k] = v]: an existing key keeps its place, a new one goes last. *)
Fixpoint set {V : Type} (k : string) (v : V) (d : t V) : t V :=
  match d with
  | [] => [(k, v)]
  | (k', v') :: d' =>
      if String.eqb k k' then (k', v) :: d' else (k', v') :: set k v d'
  end.

(** [d.values()], in insertion order. *)
Definition values {V : Type} (d : t V) : list V := map snd d.

End PyDict.

(** ** [decimal.Decimal]: finite values under the default context *)

Module PyDecimal.

(** The number [coeff * 10 ^ expo]. *)
Record t : Type := mk { coeff : Z; expo : Z }.

(** [getcontext().prec]. *)
Definition prec : Z := 28.

Definition to_Q (d : t) : Q := inject_Z (coeff d) * inject_Z 10 ^ expo d.

(** [a >= b]: the numbers are compared, exactly. *)
Definition ge (a b : t) : bool := Qle_bool (to_Q b) (to_Q a).

(** The difference before rounding: both operands are brought to the
    smaller exponent. *)
Definition sub_exact (a b : t) : t :=
  let e := Z.min (expo a) (expo b) in
  mk (coeff a * 10 ^ (expo a - e) - coeff b * 10 ^ (expo b - e)) e.

(** Number of low digits to drop so that at most [prec] remain. *)
Fixpoint excess_fuel (fuel : nat) (c : Z) : Z :=
  match fuel with
  | O => 0
  | S f => if c <? 10 ^ prec then 0 else 1 + excess_fuel f (c / 10)
  end.

Definition excess (c : Z) : Z := excess_fuel (Z.to_nat (Z.log2 c + 1)) c.

(** ROUND_HALF_EVEN of [c / 10 ^ k]. *)
Definition round_half_even (c k : Z) : Z :=
  let p := 10 ^ k in
  let q := c / p in
  let r := c mod p in
  if (2 * r >? p) || ((2 * r =? p) && Z.odd q) then q + 1 else q.

(** The rounding every arithmetic result goes through: at most [prec]
    digits are kept; a coefficient that rounds up to [10 ^ prec] is
    written with one digit less. *)
Definition fix_prec (d : t) : t :=
  let a := Z.abs (coeff d) in
  let k := excess a in
  if k =? 0 then d
  else
    let q := round_half_even a k in
    if q =? 10 ^ prec
    then mk (Z.sgn (coeff d) * 10 ^ (prec - 1)) (expo d + k + 1)
    else mk (Z.sgn (coeff d) * q) (expo d + k).

(** [a - b]. *)
Definition sub (a b : t) : t := fix_prec (sub_exact a b).


End PyDecimal.

(** ** Clock readings and ISO timestamps *)

(** What one call reads from the system: [datetime.utcnow()] in
    microseconds, the text of [time.time()] inside an f-string, and
    CPython's [id(..)] of a fresh object. *)
Record clock : Type := { utcnow : Z; time_time : string; object_id : Z }.

Definition hours (h : Z) : Z := h * 3600000000.
Definition days (d : Z) : Z := d * 86400000000.

(** A timestamp text: [isoformat()] of [instant], followed by "Z" when
    [zulu]. *)
Record isotime : Type := { instant : Z; zulu : bool }.

Inductive datetime : Type :=
| Naive (t : Z)
| Aware (t : Z).

(** [datetime.fromisoformat]: a trailing "Z" gives a datetime that
    carries the UTC zone (CPython 3.11 and later; earlier interpreters
    reject the text with a ValueError instead). *)
Definition fromisoformat (s : isotime) : datetime :=
  if zulu s then Aware (instant s) else Naive (instant s).

(** [s.replace('Z', '')]. *)
Definition replace_Z (s : isotime) : isotime :=
  {| instant := instant s; zulu := false |}.

(** [now > d] for the naive [now] of [datetime.utcnow()]. *)
Definition utcnow_gt (now : Z) (d : datetime) : outcome bool :=
  match d with
  | Naive t => Ok (now >? t)
  | Aware _ =>
      Raise (TypeError "can't compare offset-naive and offset-aware datetimes")
  end.

(** ** Library functions taken as parameters *)

Class Primitives : Type := {
  (** [hashlib.sha256(s.encode()).hexdigest()] *)
  sha256 : string -> string;
  (** [datetime.isoformat()] of a naive instant *)
  isoformat : Z -> string;
  (** [base64.b64encode(private_key.sign(data)).decode()] *)
  ed25519_sign : string -> string -> string;
  (** the module-level flag of [psinet_core] *)
  CRYPTO_AVAILABLE : bool
}.

Definition iso_text `{Primitives} (s : isotime) : string :=
  isoformat (instant s) ++ (if zulu s then "Z" else "").

(** ** [json.dumps(.., sort_keys=True)] *)

Module Json.

(** The values the ledger serialises.  A [str] is a sequence of code
    points below 256; floats do not occur in the hashed payloads. *)
#[warnings="-register-all"]
Inductive t : Type :=
| JNull
| JBool (b : bool)
| JInt (n : Z)
| JStr (s : string)
| JList (l : list t)
| JDict (d : list (string * t)).

Definition of_option (o : option string) : t :=
  match o with
  | None => JNull
  | Some s => JStr s
  end.

Definition dquote : string := String (ascii_of_nat 34) "".

Definition hex_digit (n : N) : string :=
  String.substring (N.to_nat n) 1 "0123456789abcdef".

(** One character under [ensure_ascii=True]: the two-character escapes,
    [\u00XX] for what lies outside the printable ASCII range. *)
Definition escape_char (c : ascii) : string :=
  let n := N_of_ascii c in
  if (n =? 34)%N then "\" ++ dquote
  else if (n =? 92)%N then "\\"
  else if (n =? 10)%N then "\n"
  else if (n =? 13)%N then "\r"
  else if (n =? 9)%N then "\t"
  else if (n =? 8)%N then "\b"
  else if (n =? 12)%N then "\f"
  else if ((n <? 32) || (126 <? n))%N
       then "\u00" ++ hex_digit (n / 16) ++ hex_digit (n mod 16)
       else String c "".

Fixpoint escape (s : string) : string :=
  match s with
  | EmptyString => ""
  | String c s' => escape_char c ++ escape s'
  end.

Definition quote (s : string) : string := dquote ++ escape s ++ dquote.

(** Items ordered by key, as [sorted(dct.items())] leaves them when keys
    are distinct. *)
Fixpoint insert_item (kv : string * string) (l : list (string * string))
  : list (string * string) :=
  match l with
  | [] => [kv]
  | kv' :: l' =>
      if String.leb (fst kv) (fst kv') then kv :: l else kv' :: insert_item kv l'
  end.

Definition sort_items (l : list (string * string)) : list (string * string) :=
  fold_right insert_item [] l.

Definition render_item (kv : string * string) : string :=
  quote (fst kv) ++ ": " ++ snd kv.

(** [json.dumps(v, sort_keys=True)] with the default separators. *)
Fixpoint dumps (v : t) : string :=
  match v with
  | JNull => "null"
  | JBool true => "true"
  | JBool false => "false"
  | JInt n => NilZero.string_of_int (Z.to_int n)
  | JStr s => quote s
  | JList l => "[" ++ String.concat ", " (map dumps l) ++ "]"
  | JDict d =>
      "{" ++ String.concat ", "
               (map render_item
                    (sort_items (map (fun kv => (fst kv, dumps (snd kv))) d)))
          ++ "}"
  end.

End Json.

(** ** [psinet_core]: enumerations and data classes *)

Module ContextType.
Inductive t : Type :=
| CONVERSATION | MEMORY | SKILL | KNOWLEDGE | DOCUMENT | EMBEDDING.

Definition value (c : t) : string :=
  match c with
  | CONVERSATION => "conversation"
  | MEMORY => "memory"
  | SKILL => "skill"
  | KNOWLEDGE => "knowledge"
  | DOCUMENT => "document"
  | EMBEDDING => "embedding"
  end.
End ContextType.

Module AccessCapability.
Inductive t : Type :=
| READ | WRITE | SHARE | DELEGATE | ADMIN.

Definition value (c : t) : string :=
  match c with
  | READ => "read"
  | WRITE => "write"
  | SHARE => "share"
  | DELEGATE => "delegate"
  | ADMIN => "admin"
  end.
End AccessCapability.

Module AccessToken.
Record t : Type := {
  capability : string;
  granted_to : string;
  granted_by : string;
  expires : isotime;
  context_id : option string;
  signature : option string
}.

(** [datetime.utcnow() > datetime.fromisoformat(self.expires)]: the text
    is parsed as it stands. *)
Definition is_expired (now : Z) (self : t) : outcome bool :=
  utcnow_gt now (fromisoformat (expires self)).
End AccessToken.

Module ContextUnit.
Record t : Type := {
  id : string;
  type : string;
  content : Json.t;
  owner : string;
  previous : option string;
  timestamp : isotime;
  signature : option string;
  metadata : option Json.t;
  storage_refs : option (PyDict.t string)
}.

(** The dictionary that [content_hash] serialises. *)
Definition hashed_fields `{Primitives} (self : t) : Json.t :=
  Json.JDict [ ("type", Json.JStr (type self));
               ("content", content self);
               ("owner", Json.JStr (owner self));
               ("previous", Json.of_option (previous self));
               ("timestamp", Json.JStr (iso_text (timestamp self))) ].

Definition content_hash `{Primitives} (self : t) : string :=
  sha256 (Json.dumps (hashed_fields self)).

Definition with_id (i : string) (self : t) : t :=
  {| id := i; type := type self; content := content self;
     owner := owner self; previous := previous self;
     timestamp := timestamp self; signature := signature self;
     metadata := metadata self; storage_refs := storage_refs self |}.

Definition with_signature (s : option string) (self : t) : t :=
  {| id := id self; type := type self; content := content self;
     owner := owner self; previous := previous self;
     timestamp := timestamp self; signature := s;
     metadata := metadata self; storage_refs := storage_refs self |}.
End ContextUnit.

Module ContextChain.
Record t : Type := {
  chain_id : string;
  contexts : list string;
  owner : string;
  created : isotime
}.
End ContextChain.

(** ** [psinet_core.PsiNetNode] *)

Module PsiNetNode.

(** The node's identity and stores.  [private_key] is the loaded Ed25519
    key object when there is one; writing the JSON files under
    [storage_dir] is left out. *)
Record t : Type := {
  did : option string;
  private_key : option string;
  contexts : PyDict.t ContextUnit.t;
  chains : PyDict.t ContextChain.t;
  access_tokens : list AccessToken.t
}.

Definition with_contexts (c : PyDict.t ContextUnit.t) (self : t) : t :=
  {| did := did self; private_key := private_key self; contexts := c;
     chains := chains self; access_tokens := access_tokens self |}.

Definition with_chains (c : PyDict.t ContextChain.t) (self : t) : t :=
  {| did := did self; private_key := private_key self;
     contexts := contexts self; chains := c;
     access_tokens := access_tokens self |}.

Definition with_access_tokens (l : list AccessToken.t) (self : t) : t :=
  {| did := did self; private_key := private_key self;
     contexts := contexts self; chains := chains self; access_tokens := l |}.

Definition _sign_context `{Primitives} (self : t) (context : ContextUnit.t)
  : outcome string :=
  match private_key self with
  | None => Raise (RuntimeError "Private key not available")
  | Some key =>
      let sig_data :=
        Json.dumps
          (Json.JDict
             [ ("id", Json.JStr (ContextUnit.id context));
               ("type", Json.JStr (ContextUnit.type context));
               ("owner", Json.JStr (ContextUnit.owner context));
               ("timestamp",
                Json.JStr (iso_text (ContextUnit.timestamp context)));
               ("content_hash",
                Json.JStr (ContextUnit.content_hash context)) ]) in
      Ok (ed25519_sign key sig_data)
  end.

Definition create_context `{Primitives} (self : t) (clk : clock)
    (context_type : ContextType.t) (content : Json.t)
    (previous : option string) (metadata : option Json.t)
  : outcome (ContextUnit.t * t) :=
  if negb (truthy (did self))
  then Raise (RuntimeError "Identity required. Call generate_identity() first.")
  else
    let timestamp := {| instant := utcnow clk; zulu := true |} in
    let context :=
      {| ContextUnit.id := "";
         ContextUnit.type := ContextType.value context_type;
         ContextUnit.content := content;
         ContextUnit.owner := match did self with Some d => d | None => "" end;
         ContextUnit.previous := previous;
         ContextUnit.timestamp := timestamp;
         ContextUnit.signature := None;
         ContextUnit.metadata :=
           Some match metadata with Some m => m | None => Json.JDict [] end;
         ContextUnit.storage_refs := Some [] |} in
    let context :=
      ContextUnit.with_id (ContextUnit.content_hash context) context in
    context <-
      (if CRYPTO_AVAILABLE && is_some (private_key self)
       then signature <- _sign_context self context;;
            Ok (ContextUnit.with_signature (Some signature) context)
       else Ok context);;
    Ok (context,
        with_contexts
          (PyDict.set (ContextUnit.id context) context (contexts self)) self).

(** The loop of [verify_chain], from a given [previous_id]. *)
Fixpoint verify_links `{Primitives} (store : PyDict.t ContextUnit.t)
    (previous_id : option string) (ids : list string) : bool :=
  match ids with
  | [] => true
  | context_id :: rest =>
      match PyDict.get context_id store with
      | None => false
      | Some context =>
          if negb (opt_str_eqb (ContextUnit.previous context) previous_id)
          then false
          else if negb (String.eqb (ContextUnit.id context)
                                   (ContextUnit.content_hash context))
          then false
          else verify_links store (Some context_id) rest
      end
  end.

Definition verify_chain `{Primitives} (self : t) (chain_id : string) : bool :=
  match PyDict.get chain_id (chains self) with
  | None => false
  | Some chain =>
      verify_links (contexts self) None (ContextChain.contexts chain)
  end.

Definition create_chain `{Primitives} (self : t) (clk : clock)
    (context_ids : list string) : outcome (ContextChain.t * t) :=
  match did self with
  | Some d =>
      if String.eqb d "" then Raise (RuntimeError "Identity required")
      else
        let chain_id :=
          String.substring 0 16
            (sha256 (d ++ ":" ++ String.concat "," context_ids ++ ":"
                       ++ time_time clk)) in
        let chain :=
          {| ContextChain.chain_id := chain_id;
             ContextChain.contexts := context_ids;
             ContextChain.owner := d;
             ContextChain.created :=
               {| instant := utcnow clk; zulu := true |} |} in
        Ok (chain, with_chains (PyDict.set chain_id chain (chains self)) self)
  | None => Raise (RuntimeError "Identity required")
  end.

Definition grant_access `{Primitives} (self : t) (clk : clock)
    (capability : AccessCapability.t) (granted_to_did : string)
    (context_id : option string) (expires_in_hours : Z)
  : outcome (AccessToken.t * t) :=
  match did self with
  | Some d =>
      if String.eqb d "" then Raise (RuntimeError "Identity required")
      else
        let expires :=
          {| instant := utcnow clk + hours expires_in_hours; zulu := true |} in
        let token_data :=
          Json.dumps
            (Json.JDict
               [ ("capability", Json.JStr (AccessCapability.value capability));
                 ("granted_to", Json.JStr granted_to_did);
                 ("granted_by", Json.JStr d);
                 ("expires", Json.JStr (iso_text expires));
                 ("context_id", Json.of_option context_id) ]) in
        let token :=
          {| AccessToken.capability := AccessCapability.value capability;
             AccessToken.granted_to := granted_to_did;
             AccessToken.granted_by := d;
             AccessToken.expires := expires;
             AccessToken.context_id := context_id;
             AccessToken.signature :=
               match private_key self with
               | Some key =>
                   if CRYPTO_AVAILABLE
                   then Some (ed25519_sign key token_data)
                   else None
               | None => None
               end |} in
        Ok (token, with_access_tokens (access_tokens self ++ [token]) self)
  | None => Raise (RuntimeError "Identity required")
  end.

Definition check_access (self : t) (now : Z) (token : AccessToken.t)
    (capability : AccessCapability.t) (context_id : option string)
  : outcome bool :=
  expired <- AccessToken.is_expired now token;;
  if expired then Ok false
  else if negb (String.eqb (AccessToken.capability token)
                           (AccessCapability.value capability))
  then Ok false
  else if truthy context_id
          && negb (opt_str_eqb (AccessToken.context_id token) context_id)
  then Ok false
  else Ok true.

End PsiNetNode.

(** ** [psinet_payment]: enumerations and data classes *)

Module PaymentMethod.
Inductive t : Type :=
| BITCOIN | ETHEREUM | LIGHTNING | CUSTOM_TOKEN | ARWEAVE_AR | IPFS_FILECOIN.

Definition value (m : t) : string :=
  match m with
  | BITCOIN => "bitcoin"
  | ETHEREUM => "ethereum"
  | LIGHTNING => "lightning"
  | CUSTOM_TOKEN => "custom_token"
  | ARWEAVE_AR => "arweave_ar"
  | IPFS_FILECOIN => "ipfs_filecoin"
  end.
End PaymentMethod.

Module PaymentStatus.
Inductive t : Type :=
| PENDING | CONFIRMED | FAILED | EXPIRED | REFUNDED.

Definition value (s : t) : string :=
  match s with
  | PENDING => "pending"
  | CONFIRMED => "confirmed"
  | FAILED => "failed"
  | EXPIRED => "expired"
  | REFUNDED => "refunded"
  end.
End PaymentStatus.

Module PricingModel.
Inductive t : Type :=
| FREE | PAY_PER_ACCESS | PAY_PER_QUERY | SUBSCRIPTION | PAY_PER_TOKEN | AUCTION.

Definition value (p : t) : string :=
  match p with
  | FREE => "free"
  | PAY_PER_ACCESS => "pay_per_access"
  | PAY_PER_QUERY => "pay_per_query"
  | SUBSCRIPTION => "subscription"
  | PAY_PER_TOKEN => "pay_per_token"
  | AUCTION => "auction"
  end.
End PricingModel.

Module PaymentRequirement.
Record t : Type := {
  pricing_model : string;
  amount : PyDecimal.t;
  currency : string;
  recipient_address : string;
  expires : option isotime;
  description : option string;
  metadata : option (PyDict.t string)
}.

(** No expiry never lapses; otherwise the "Z" is removed before the text
    is parsed and compared with [datetime.utcnow()]. *)
Definition is_expired (now : Z) (self : t) : outcome bool :=
  match expires self with
  | None => Ok false
  | Some e => utcnow_gt now (fromisoformat (replace_Z e))
  end.
End PaymentRequirement.

Module PaymentReceipt.
Record t : Type := {
  receipt_id : string;
  payment_requirement_id : Z;
  payer_did : string;
  recipient_did : string;
  amount : PyDecimal.t;
  currency : string;
  transaction_hash : string;
  status : string;
  timestamp : isotime;
  context_id : option string;
  signature : option string;
  metadata : option (PyDict.t string)
}.

(** [receipt.status = s]. *)
Definition set_status (s : string) (self : t) : t :=
  {| receipt_id := receipt_id self;
     payment_requirement_id := payment_requirement_id self;
     payer_did := payer_did self; recipient_did := recipient_did self;
     amount := amount self; currency := currency self;
     transaction_hash := transaction_hash self; status := s;
     timestamp := timestamp self; context_id := context_id self;
     signature := signature self; metadata := metadata self |}.
End PaymentReceipt.

Module PaymentChannel.
Record t : Type := {
  channel_id : string;
  payer_did : string;
  recipient_did : string;
  total_capacity : PyDecimal.t;
  current_balance : PyDecimal.t;
  currency : string;
  opened : isotime;
  expires : isotime;
  status : string;
  signature : option string
}.

Definition has_sufficient_balance (self : t) (amount : PyDecimal.t) : bool :=
  PyDecimal.ge (current_balance self) amount.

(** [channel.current_balance = b]. *)
Definition set_current_balance (b : PyDecimal.t) (self : t) : t :=
  {| channel_id := channel_id self; payer_did := payer_did self;
     recipient_did := recipient_did self;
     total_capacity := total_capacity self; current_balance := b;
     currency := currency self; opened := opened self;
     expires := expires self; status := status self;
     signature := signature self |}.

(** [channel.status = s]. *)
Definition set_status (s : string) (self : t) : t :=
  {| channel_id := channel_id self; payer_did := payer_did self;
     recipient_did := recipient_did self;
     total_capacity := total_capacity self;
     current_balance := current_balance self;
     currency := currency self; opened := opened self;
     expires := expires self; status := s;
     signature := signature self |}.
(** The same channel with another [expires] text. *)
Definition set_expires (e : isotime) (self : t) : t :=
  {| channel_id := channel_id self; payer_did := payer_did self;
     recipient_did := recipient_did self;
     total_capacity := total_capacity self;
     current_balance := current_balance self;
     currency := currency self; opened := opened self;
     expires := e; status := status self;
     signature := signature self |}.
End PaymentChannel.

Module X402Response.
Record t : Type := {
  status_code : Z;
  message : string;
  payment_requirement : option PaymentRequirement.t;
  payment_methods_accepted : option (list string);
  payment_endpoint : option string
}.
End X402Response.

(** The verifier of [PaymentManager.verify_payment], one entry per
    currency it knows. *)
Class PaymentVerifier : Type := {
  verify_bitcoin_payment : string -> PyDecimal.t -> string -> bool;
  verify_ethereum_payment : string -> PyDecimal.t -> string -> bool;
  verify_lightning_payment : string -> PyDecimal.t -> bool;
  verify_arweave_payment : string -> PyDecimal.t -> bool
}.

(** The verifier the module ships: every method answers [True]. *)
Definition placeholder_verifier : PaymentVerifier :=
  {| verify_bitcoin_payment := fun _ _ _ => true;
     verify_ethereum_payment := fun _ _ _ => true;
     verify_lightning_payment := fun _ _ => true;
     verify_arweave_payment := fun _ _ => true |}.

(** ** [psinet_payment.PaymentManager] *)

Module PaymentManager.

(** Receipts are objects the caller keeps and hands back to
    [verify_payment], which writes their status: they live in
    [receipt_objects] and are designated by their index there;
    [payment_receipts] maps a receipt id to its object. *)
Record t : Type := {
  node_did : string;
  storage_dir : string;
  payment_requirements : PyDict.t PaymentRequirement.t;
  receipt_objects : list PaymentReceipt.t;
  payment_receipts : PyDict.t nat;
  payment_channels : PyDict.t PaymentChannel.t;
  wallet_addresses : PyDict.t string
}.

Definition init (node_did storage_dir : string) : t :=
  {| node_did := node_did; storage_dir := storage_dir;
     payment_requirements := []; receipt_objects := [];
     payment_receipts := []; payment_channels := [];
     wallet_addresses :=
       [("bitcoin", ""); ("ethereum", ""); ("lightning", "")] |}.

Definition with_payment_requirements (d : PyDict.t PaymentRequirement.t)
    (self : t) : t :=
  {| node_did := node_did self; storage_dir := storage_dir self;
     payment_requirements := d; receipt_objects := receipt_objects self;
     payment_receipts := payment_receipts self;
     payment_channels := payment_channels self;
     wallet_addresses := wallet_addresses self |}.

Definition with_receipts (objs : list PaymentReceipt.t) (d : PyDict.t nat)
    (self : t) : t :=
  {| node_did := node_did self; storage_dir := storage_dir self;
     payment_requirements := payment_requirements self;
     receipt_objects := objs; payment_receipts := d;
     payment_channels := payment_channels self;
     wallet_addresses := wallet_addresses self |}.

Definition with_payment_channels (d : PyDict.t PaymentChannel.t)
    (self : t) : t :=
  {| node_did := node_did self; storage_dir := storage_dir self;
     payment_requirements := payment_requirements self;
     receipt_objects := receipt_objects self;
     payment_receipts := payment_receipts self;
     payment_channels := d;
     wallet_addresses := wallet_addresses self |}.

Definition create_payment_requirement (self : t) (clk : clock)
    (context_id : string) (pricing_model : PricingModel.t)
    (amount : PyDecimal.t) (currency : PaymentMethod.t)
    (recipient_address : string) (expires_in_hours : option Z)
    (description : option string) : PaymentRequirement.t * t :=
  let expires :=
    match expires_in_hours with
    | Some h =>
        if h =? 0 then None
        else Some {| instant := utcnow clk + hours h; zulu := true |}
    | None => None
    end in
  let requirement :=
    {| PaymentRequirement.pricing_model := PricingModel.value pricing_model;
       PaymentRequirement.amount := amount;
       PaymentRequirement.currency := PaymentMethod.value currency;
       PaymentRequirement.recipient_address := recipient_address;
       PaymentRequirement.expires := expires;
       PaymentRequirement.description :=
         if truthy description then description
         else Some ("Payment for context "
                      ++ String.substring 0 16 context_id);
       PaymentRequirement.metadata := Some [("context_id", context_id)] |} in
  (requirement,
   with_payment_requirements
     (PyDict.set context_id requirement (payment_requirements self)) self).

(** Returns the reference of the new receipt object. *)
Definition create_payment_receipt `{Primitives} (self : t) (clk : clock)
    (payment_requirement : PaymentRequirement.t) (payer_did : string)
    (transaction_hash : string) (context_id : option string) : nat * t :=
  let receipt_id :=
    sha256 (payer_did ++ ":" ++ transaction_hash ++ ":" ++ time_time clk) in
  let receipt :=
    {| PaymentReceipt.receipt_id := receipt_id;
       PaymentReceipt.payment_requirement_id := object_id clk;
       PaymentReceipt.payer_did := payer_did;
       PaymentReceipt.recipient_did := node_did self;
       PaymentReceipt.amount := PaymentRequirement.amount payment_requirement;
       PaymentReceipt.currency :=
         PaymentRequirement.currency payment_requirement;
       PaymentReceipt.transaction_hash := transaction_hash;
       PaymentReceipt.status := PaymentStatus.value PaymentStatus.PENDING;
       PaymentReceipt.timestamp := {| instant := utcnow clk; zulu := true |};
       PaymentReceipt.context_id := context_id;
       PaymentReceipt.signature := None;
       PaymentReceipt.metadata := None |} in
  let r := List.length (receipt_objects self) in
  (r,
   with_receipts (receipt_objects self ++ [receipt])
     (PyDict.set receipt_id r (payment_receipts self)) self).

(** [verify_payment] on the receipt object: the answer and the receipt
    as the call leaves it. *)
Definition verify_payment `{PaymentVerifier} (self : t)
    (receipt : PaymentReceipt.t) : bool * PaymentReceipt.t :=
  let currency := PaymentReceipt.currency receipt in
  let tx_hash := PaymentReceipt.transaction_hash receipt in
  let amount := PaymentReceipt.amount receipt in
  match find (fun req => String.eqb (PaymentRequirement.currency req) currency)
             (PyDict.values (payment_requirements self)) with
  | None => (false, receipt)
  | Some requirement =>
      let verified :=
        if String.eqb currency (PaymentMethod.value PaymentMethod.BITCOIN)
        then verify_bitcoin_payment tx_hash amount
               (PaymentRequirement.recipient_address requirement)
        else if String.eqb currency
                  (PaymentMethod.value PaymentMethod.ETHEREUM)
        then verify_ethereum_payment tx_hash amount
               (PaymentRequirement.recipient_address requirement)
        else if String.eqb currency
                  (PaymentMethod.value PaymentMethod.LIGHTNING)
        then verify_lightning_payment tx_hash amount
        else if String.eqb currency
                  (PaymentMethod.value PaymentMethod.ARWEAVE_AR)
        then verify_arweave_payment tx_hash amount
        else false in
      if verified
      then (true,
            PaymentReceipt.set_status
              (PaymentStatus.value PaymentStatus.CONFIRMED) receipt)
      else (false,
            PaymentReceipt.set_status
              (PaymentStatus.value PaymentStatus.FAILED) receipt)
  end.

Fixpoint update_nth {A : Type} (n : nat) (x : A) (l : list A) : list A :=
  match l, n with
  | [], _ => []
  | _ :: l', O => x :: l'
  | y :: l', S n' => y :: update_nth n' x l'
  end.

(** [verify_payment] on the object a reference designates. *)
Definition verify_payment_at `{PaymentVerifier} (self : t) (r : nat)
  : option (bool * t) :=
  match nth_error (receipt_objects self) r with
  | None => None
  | Some receipt =>
      let '(verified, receipt') := verify_payment self receipt in
      Some (verified,
            with_receipts (update_nth r receipt' (receipt_objects self))
              (payment_receipts self) self)
  end.

(** [self.payment_receipts.values()]. *)
Definition receipts (self : t) : list PaymentReceipt.t :=
  flat_map (fun r => match nth_error (receipt_objects self) r with
                     | Some receipt => [receipt]
                     | None => []
                     end)
           (PyDict.values (payment_receipts self)).

(** The test of the receipt loop. *)
Definition already_paid (context_id requester_did : string)
    (receipt : PaymentReceipt.t) : bool :=
  opt_str_eqb (PaymentReceipt.context_id receipt) (Some context_id)
  && String.eqb (PaymentReceipt.payer_did receipt) requester_did
  && String.eqb (PaymentReceipt.status receipt)
                (PaymentStatus.value PaymentStatus.CONFIRMED).

(** The test of the channel loop. *)
Definition channel_covers (self : t) (requester_did : string)
    (amount : PyDecimal.t) (channel : PaymentChannel.t) : bool :=
  String.eqb (PaymentChannel.payer_did channel) requester_did
  && String.eqb (PaymentChannel.recipient_did channel) (node_did self)
  && String.eqb (PaymentChannel.status channel) "open"
  && PaymentChannel.has_sufficient_balance channel amount.

(** The channel loop: the first channel that passes the test pays. *)
Fixpoint pay_via_channel (covers : PaymentChannel.t -> bool)
    (amount : PyDecimal.t) (channels : PyDict.t PaymentChannel.t)
  : option (PyDict.t PaymentChannel.t) :=
  match channels with
  | [] => None
  | (k, channel) :: rest =>
      if covers channel
      then Some ((k, PaymentChannel.set_current_balance
                       (PyDecimal.sub (PaymentChannel.current_balance channel)
                                      amount)
                       channel) :: rest)
      else match pay_via_channel covers amount rest with
           | Some rest' => Some ((k, channel) :: rest')
           | None => None
           end
  end.

(** [None] grants access; otherwise the 402 response. *)
Definition check_payment_for_context (self : t) (now : Z)
    (context_id requester_did : string)
  : outcome (option X402Response.t * t) :=
  match PyDict.get context_id (payment_requirements self) with
  | None => Ok (None, self)
  | Some requirement =>
      expired <- PaymentRequirement.is_expired now requirement;;
      if expired then Ok (None, self)
      else if existsb (already_paid context_id requester_did) (receipts self)
      then Ok (None, self)
      else
        match pay_via_channel
                (channel_covers self requester_did
                   (PaymentRequirement.amount requirement))
                (PaymentRequirement.amount requirement)
                (payment_channels self) with
        | Some channels => Ok (None, with_payment_channels channels self)
        | None =>
            Ok (Some
                  {| X402Response.status_code := 402;
                     X402Response.message := "Payment Required";
                     X402Response.payment_requirement := Some requirement;
                     X402Response.payment_methods_accepted :=
                       Some [ PaymentMethod.value PaymentMethod.BITCOIN;
                              PaymentMethod.value PaymentMethod.ETHEREUM;
                              PaymentMethod.value PaymentMethod.LIGHTNING ];
                     X402Response.payment_endpoint :=
                       Some ("psinet://payments/" ++ node_did self) |},
                self)
        end
  end.

Definition open_payment_channel `{Primitives} (self : t) (clk : clock)
    (payer_did : string) (total_capacity : PyDecimal.t)
    (currency : PaymentMethod.t) (expires_in_days : Z)
  : PaymentChannel.t * t :=
  let channel_id :=
    sha256 (payer_did ++ ":" ++ node_did self ++ ":" ++ time_time clk) in
  let channel :=
    {| PaymentChannel.channel_id := channel_id;
       PaymentChannel.payer_did := payer_did;
       PaymentChannel.recipient_did := node_did self;
       PaymentChannel.total_capacity := total_capacity;
       PaymentChannel.current_balance := total_capacity;
       PaymentChannel.currency := PaymentMethod.value currency;
       PaymentChannel.opened := {| instant := utcnow clk; zulu := true |};
       PaymentChannel.expires :=
         {| instant := utcnow clk + days expires_in_days; zulu := true |};
       PaymentChannel.status := "open";
       PaymentChannel.signature := None |} in
  (channel,
   with_payment_channels
     (PyDict.set channel_id channel (payment_channels self)) self).

Definition close_payment_channel (self : t) (channel_id : string) : t :=
  match PyDict.get channel_id (payment_channels self) with
  | Some channel =>
      with_payment_channels
        (PyDict.set channel_id (PaymentChannel.set_status "closed" channel)
           (payment_channels self)) self
  | None => self
  end.

(** *** Sequences of calls *)

Inductive call : Type :=
| Create_payment_requirement (context_id : string)
    (pricing_model : PricingModel.t) (amount : PyDecimal.t)
    (currency : PaymentMethod.t) (recipient_address : string)
    (expires_in_hours : option Z) (description : option string)
| Create_payment_receipt (payment_requirement : PaymentRequirement.t)
    (payer_did transaction_hash : string) (context_id : option string)
| Verify_payment (receipt : nat)
| Check_payment_for_context (context_id requester_did : string)
| Open_payment_channel (payer_did : string) (total_capacity : PyDecimal.t)
    (currency : PaymentMethod.t) (expires_in_days : Z)
| Close_payment_channel (channel_id : string).

(** The manager after one call made under the clock reading [clk]. *)
Definition step `{Primitives} `{PaymentVerifier} (self : t)
    (ev : clock * call) : t :=
  let clk := fst ev in
  match snd ev with
  | Create_payment_requirement context_id pricing_model amount currency
      recipient_address expires_in_hours description =>
      snd (create_payment_requirement self clk context_id pricing_model amount
             currency recipient_address expires_in_hours description)
  | Create_payment_receipt payment_requirement payer_did transaction_hash
      context_id =>
      snd (create_payment_receipt self clk payment_requirement payer_did
             transaction_hash context_id)
  | Verify_payment r =>
      match verify_payment_at self r with
      | Some (_, self') => self'
      | None => self
      end
  | Check_payment_for_context context_id requester_did =>
      match check_payment_for_context self (utcnow clk) context_id
              requester_did with
      | Ok (_, self') => self'
      | Raise _ => self
      end
  | Open_payment_channel payer_did total_capacity currency expires_in_days =>
      snd (open_payment_channel self clk payer_did total_capacity currency
             expires_in_days)
  | Close_payment_channel channel_id => close_payment_channel self channel_id
  end.

Definition run `{Primitives} `{PaymentVerifier} (self : t)
    (trace : list (clock * call)) : t :=
  fold_left step trace self.

End PaymentManager.

(** ** Reference statements and sample data *)

Module ChainRule.

(** The id listed just before position [i], none for the first. *)
Definition prior (ids : list string) (i : nat) : option string :=
  match i with
  | O => None
  | S j => nth_error ids j
  end.

(** A listed unit passes: it is in the store, its [previous] is the
    expected one and its id is its recomputed content hash. *)
Definition unit_ok `{Primitives} (store : PyDict.t ContextUnit.t)
    (expected : option string) (context_id : string) : Prop :=
  exists context,
    PyDict.get context_id store = Some context /\
    ContextUnit.previous context = expected /\
    ContextUnit.id context = ContextUnit.content_hash context.

(** The chain rule as the data model words it: every listed unit
    exists, links to the id listed before it (none for the first) and
    carries its own content hash. *)
Definition chain_valid `{Primitives} (store : PyDict.t ContextUnit.t)
    (ids : list string) : Prop :=
  forall i context_id,
    nth_error ids i = Some context_id ->
    unit_ok store (prior ids i) context_id.

End ChainRule.

Module GateRule.

(** The four grounds on which the decision procedure grants access. *)


(** A requirement is registered and the clock is past its expiry. *)
Definition lapsed (self : PaymentManager.t) (now : Z) (context_id : string)
  : Prop :=
  exists requirement e,
    PyDict.get context_id (PaymentManager.payment_requirements self)
    = Some requirement /\
    PaymentRequirement.expires requirement = Some e /\
    now > instant e.

(** A CONFIRMED receipt of this requester for this context exists. *)
Definition paid (self : PaymentManager.t) (context_id requester_did : string)
  : Prop :=
  exists receipt,
    In receipt (PaymentManager.receipts self) /\
    PaymentReceipt.context_id receipt = Some context_id /\
    PaymentReceipt.payer_did receipt = requester_did /\
    PaymentReceipt.status receipt
    = PaymentStatus.value PaymentStatus.CONFIRMED.

(** An open channel from the requester to the node owner holds at least
    [amount]. *)
Definition channel_eligible (self : PaymentManager.t) (requester_did : string)
    (amount : PyDecimal.t) (channel : PaymentChannel.t) : Prop :=
  PaymentChannel.payer_did channel = requester_did /\
  PaymentChannel.recipient_did channel = PaymentManager.node_did self /\
  PaymentChannel.status channel = "open" /\
  (PyDecimal.to_Q amount
   <= PyDecimal.to_Q (PaymentChannel.current_balance channel))%Q.

Definition covered (self : PaymentManager.t) (context_id requester_did : string)
  : Prop :=
  exists requirement channel,
    PyDict.get context_id (PaymentManager.payment_requirements self)
    = Some requirement /\
    In channel (PyDict.values (PaymentManager.payment_channels self)) /\
    channel_eligible self requester_did
      (PaymentRequirement.amount requirement) channel.

(** The 402 answer that carries [requirement]. *)
Definition payment_required (self : PaymentManager.t)
    (requirement : PaymentRequirement.t) : X402Response.t :=
  {| X402Response.status_code := 402;
     X402Response.message := "Payment Required";
     X402Response.payment_requirement := Some requirement;
     X402Response.payment_methods_accepted :=
       Some ["bitcoin"; "ethereum"; "lightning"];
     X402Response.payment_endpoint :=
       Some ("psinet://payments/" ++ PaymentManager.node_did self) |}.

(** The channels with their [expires] replaced, key by key. *)
Definition retime (f : string -> isotime)
    (channels : PyDict.t PaymentChannel.t) : PyDict.t PaymentChannel.t :=
  map (fun x => (fst x, PaymentChannel.set_expires (f (fst x)) (snd x)))
      channels.





End GateRule.

Module Sample.

(** Stand-ins for the library functions, to run the model on data. *)
Definition primitives : Primitives :=
  {| sha256 := fun s => "sha256:" ++ s;
     isoformat := fun t => NilZero.string_of_int (Z.to_int t);
     ed25519_sign := fun key data => "sig:" ++ key;
     CRYPTO_AVAILABLE := true |}.

Definition clock0 : clock :=
  {| utcnow := 1000; time_time := "1.0"; object_id := 1 |}.

Definition node : PsiNetNode.t :=
  {| PsiNetNode.did := Some "did:psinet:alice";
     PsiNetNode.private_key := Some "key";
     PsiNetNode.contexts := [];
     PsiNetNode.chains := [];
     PsiNetNode.access_tokens := [] |}.

(** A READ token bound to one context, its expiry written without
    "Z". *)
Definition bound_token : AccessToken.t :=
  {| AccessToken.capability := "read";
     AccessToken.granted_to := "did:psinet:bob";
     AccessToken.granted_by := "did:psinet:alice";
     AccessToken.expires := {| instant := 5000; zulu := false |};
     AccessToken.context_id := Some "ctx-a";
     AccessToken.signature := None |}.

(** What [grant_access] returns to [node] under [clock0] for a READ
    grant on "ctx-a" lasting 24 hours. *)
Definition granted_token : AccessToken.t :=
  {| AccessToken.capability := "read";
     AccessToken.granted_to := "did:psinet:bob";
     AccessToken.granted_by := "did:psinet:alice";
     AccessToken.expires := {| instant := 86400001000; zulu := true |};
     AccessToken.context_id := Some "ctx-a";
     AccessToken.signature := Some "sig:key" |}.


Definition clock1 : clock :=
  {| utcnow := 2000; time_time := "2.0"; object_id := 2 |}.

Definition clock2 : clock :=
  {| utcnow := 3000; time_time := "3.0"; object_id := 3 |}.

(** The scenario of two linked memory units A and B and the chain
    [A.id; B.id], run on [node]. *)
Definition ledger_run
  : outcome (ContextUnit.t * ContextUnit.t * ContextChain.t * PsiNetNode.t) :=
  a <- @PsiNetNode.create_context primitives node clock0 ContextType.MEMORY
         (Json.JDict [("memory", Json.JStr "x")]) None None;;
  b <- @PsiNetNode.create_context primitives (snd a) clock1 ContextType.MEMORY
         (Json.JDict [("memory", Json.JStr "y")])
         (Some (ContextUnit.id (fst a))) None;;
  c <- @PsiNetNode.create_chain primitives (snd b) clock2
         [ContextUnit.id (fst a); ContextUnit.id (fst b)];;
  Ok (fst a, fst b, fst c, snd c).

Definition ledger : PsiNetNode.t :=
  match ledger_run with
  | Ok (_, _, _, n) => n
  | Raise _ => node
  end.

Definition ledger_chain : ContextChain.t :=
  match ledger_run with
  | Ok (_, _, c, _) => c
  | Raise _ =>
      {| ContextChain.chain_id := ""; ContextChain.contexts := [];
         ContextChain.owner := "";
         ContextChain.created := {| instant := 0; zulu := true |} |}
  end.

Definition manager0 : PaymentManager.t :=
  PaymentManager.init "did:psinet:alice" ".psinet/payments".

Definition run_sample (trace : list (clock * PaymentManager.call))
  : PaymentManager.t :=
  @PaymentManager.run primitives placeholder_verifier manager0 trace.


(** A channel of capacity 0.01 opened for one day at instant 1000 and
    a context priced 0.0001 with no expiry. *)
Definition micro_manager : PaymentManager.t :=
  run_sample
    [ (clock0, PaymentManager.Open_payment_channel "did:psinet:bob"
                 (PyDecimal.mk 1 (-2)) PaymentMethod.BITCOIN 1);
      (clock0, PaymentManager.Create_payment_requirement "ctx-a"
                 PricingModel.PAY_PER_ACCESS (PyDecimal.mk 1 (-4))
                 PaymentMethod.BITCOIN "addr" None None) ].

(** A receipt recorded against a bitcoin price of "ctx-a", after which
    the context is priced in ethereum instead. *)
Definition repriced_run : nat * PaymentManager.t :=
  let '(requirement, m1) :=
    PaymentManager.create_payment_requirement manager0 clock0 "ctx-a"
      PricingModel.PAY_PER_ACCESS (PyDecimal.mk 1 (-4))
      PaymentMethod.BITCOIN "addr" (Some 24) None in
  let '(r, m2) :=
    @PaymentManager.create_payment_receipt primitives m1 clock1 requirement
      "did:psinet:bob" "tx-1" (Some "ctx-a") in
  let '(_, m3) :=
    PaymentManager.create_payment_requirement m2 clock2 "ctx-a"
      PricingModel.PAY_PER_ACCESS (PyDecimal.mk 1 (-2))
      PaymentMethod.ETHEREUM "addr" (Some 24) None in
  (r, m3).




End Sample.

(** ** [psinet_core]: identity, signature check and queries *)

(** The Ed25519 key operations and byte helpers, as parameters. *)
Class Ed25519 : Type := {
  (** [key.public_key().public_bytes(Raw, Raw)] *)
  public_bytes : string -> string;
  (** [base64.b64encode(b).decode()] *)
  b64encode : string -> string;
  (** [hashlib.sha256(b).hexdigest()] of a byte string *)
  sha256_bytes : string -> string;
  (** Whether decoding the public key and the signature from base64 and
      [public_key.verify(signature, data)] all pass without raising;
      the arguments are the base64 key, the base64 signature and the
      signed text. *)
  ed25519_verify : string -> string -> string -> bool
}.

Module DIDDocument.
Record t : Type := {
  did : string;
  public_key : string;
  created : isotime;
  updated : isotime;
  service_endpoints : list string;
  verification_methods : list (PyDict.t string)
}.
End DIDDocument.

Module Identity.

(** [generate_identity], [fresh_key] being the key that
    [Ed25519PrivateKey.generate()] draws.  The node keeps the key and the
    DID; its [public_key] and [did_document] attributes are the key's
    public half and the document returned.  Writing the two files is
    left out. *)
Definition generate_identity `{Primitives} `{Ed25519} (self : PsiNetNode.t)
    (clk : clock) (fresh_key : string)
  : outcome (DIDDocument.t * PsiNetNode.t) :=
  if negb CRYPTO_AVAILABLE
  then Raise (RuntimeError
                "Cryptography library required for identity generation")
  else
    let pub_bytes := public_bytes fresh_key in
    let pub_key_b64 := b64encode pub_bytes in
    let did_suffix := String.substring 0 16 (sha256_bytes pub_bytes) in
    let did := "did:psinet:" ++ did_suffix in
    let now := {| instant := utcnow clk; zulu := true |} in
    let did_document :=
      {| DIDDocument.did := did;
         DIDDocument.public_key := pub_key_b64;
         DIDDocument.created := now;
         DIDDocument.updated := now;
         DIDDocument.service_endpoints := [];
         DIDDocument.verification_methods :=
           [ [ ("id", did ++ "#keys-1");
               ("type", "Ed25519VerificationKey2020");
               ("controller", did);
               ("publicKeyBase64", pub_key_b64) ] ] |} in
    Ok (did_document,
        {| PsiNetNode.did := Some did;
           PsiNetNode.private_key := Some fresh_key;
           PsiNetNode.contexts := PsiNetNode.contexts self;
           PsiNetNode.chains := PsiNetNode.chains self;
           PsiNetNode.access_tokens := PsiNetNode.access_tokens self |}).

(** The text whose signature [verify_context] checks. *)
Definition sig_data `{Primitives} (context : ContextUnit.t) : string :=
  Json.dumps
    (Json.JDict
       [ ("id", Json.JStr (ContextUnit.id context));
         ("type", Json.JStr (ContextUnit.type context));
         ("owner", Json.JStr (ContextUnit.owner context));
         ("timestamp", Json.JStr (iso_text (ContextUnit.timestamp context)));
         ("content_hash", Json.JStr (ContextUnit.content_hash context)) ]).

(** [verify_context]: any exception of the check is answered [False]. *)
Definition verify_context `{Primitives} `{Ed25519} (self : PsiNetNode.t)
    (context : ContextUnit.t) (public_key_b64 : string) : bool :=
  if negb CRYPTO_AVAILABLE || negb (truthy (ContextUnit.signature context))
  then false
  else
    match ContextUnit.signature context with
    | Some signature =>
        ed25519_verify public_key_b64 signature (sig_data context)
    | None => false
    end.

End Identity.

Module Query.

(** [a <= b] on two parsed datetimes: naive with naive, aware with
    aware; mixing them raises. *)
Definition datetime_le (a b : datetime) : outcome bool :=
  match a, b with
  | Naive x, Naive y => Ok (x <=? y)
  | Aware x, Aware y => Ok (x <=? y)
  | _, _ =>
      Raise (TypeError "can't compare offset-naive and offset-aware datetimes")
  end.

(** The loop of [query_contexts] over the remaining stored units,
    [results] being the list built so far. *)
Fixpoint query_loop (context_type : option ContextType.t)
    (owner : option string) (after : option isotime) (limit : Z)
    (values : list ContextUnit.t) (results : list ContextUnit.t)
  : outcome (list ContextUnit.t) :=
  match values with
  | [] => Ok results
  | context :: rest =>
      if match context_type with
         | Some ct =>
             negb (String.eqb (ContextUnit.type context) (ContextType.value ct))
         | None => false
         end
      then query_loop context_type owner after limit rest results
      else if match owner with
              | Some o =>
                  truthy owner && negb (String.eqb (ContextUnit.owner context) o)
              | None => false
              end
      then query_loop context_type owner after limit rest results
      else
        too_old <-
          match after with
          | Some a =>
              datetime_le
                (fromisoformat (replace_Z (ContextUnit.timestamp context)))
                (fromisoformat (replace_Z a))
          | None => Ok false
          end;;
        if too_old
        then query_loop context_type owner after limit rest results
        else
          let results := (results ++ [context])%list in
          if Z.of_nat (List.length results) >=? limit
          then Ok results
          else query_loop context_type owner after limit rest results
  end.

Definition query_contexts (self : PsiNetNode.t)
    (context_type : option ContextType.t) (owner : option string)
    (after : option isotime) (limit : Z) : outcome (list ContextUnit.t) :=
  query_loop context_type owner after limit
    (PyDict.values (PsiNetNode.contexts self)) [].

(** The units the three filters let through. *)
Definition selected (context_type : option ContextType.t)
    (owner : option string) (after : option isotime)
    (context : ContextUnit.t) : bool :=
  match context_type with
  | Some ct => String.eqb (ContextUnit.type context) (ContextType.value ct)
  | None => true
  end
  && match owner with
     | Some o => String.eqb o "" || String.eqb (ContextUnit.owner context) o
     | None => true
     end
  && match after with
     | Some a => instant a <? instant (ContextUnit.timestamp context)
     | None => true
     end.

End Query.

(** ** [psinet_payment]: invoices and statistics *)

Module PyDecimalSum.

(** The sum before rounding. *)
Definition add_exact (a b : PyDecimal.t) : PyDecimal.t :=
  let e := Z.min (PyDecimal.expo a) (PyDecimal.expo b) in
  PyDecimal.mk (PyDecimal.coeff a * 10 ^ (PyDecimal.expo a - e)
                + PyDecimal.coeff b * 10 ^ (PyDecimal.expo b - e)) e.

(** [a + b] under the default context. *)
Definition add (a b : PyDecimal.t) : PyDecimal.t :=
  PyDecimal.fix_prec (add_exact a b).

(** [Decimal(0)]. *)
Definition zero : PyDecimal.t := PyDecimal.mk 0 0.

End PyDecimalSum.

Module Invoice.
Record t : Type := {
  invoice_id : string;
  context_id : string;
  amount : string;
  currency : string;
  recipient_address : string;
  recipient_did : string;
  description : string;
  created : isotime;
  qr_code_data : string
}.
End Invoice.

Module PricingStats.
Record t : Type := {
  total_receipts : Z;
  confirmed_payments : Z;
  pending_payments : Z;
  total_revenue : PyDict.t PyDecimal.t;
  open_channels : Z;
  monetized_contexts : Z
}.
End PricingStats.

Module Billing.

(** [_generate_payment_uri]; the amount is the text given, unparsed. *)
Definition _generate_payment_uri (self : PaymentManager.t)
    (currency : PaymentMethod.t) (address amount : string) : string :=
  match currency with
  | PaymentMethod.BITCOIN => "bitcoin:" ++ address ++ "?amount=" ++ amount
  | PaymentMethod.ETHEREUM => "ethereum:" ++ address ++ "?value=" ++ amount
  | PaymentMethod.LIGHTNING => "lightning:" ++ address ++ "?amount=" ++ amount
  | _ => PaymentMethod.value currency ++ ":" ++ address ++ "?amount=" ++ amount
  end.

Definition generate_payment_invoice `{Primitives} (self : PaymentManager.t)
    (clk : clock) (context_id amount : string) (currency : PaymentMethod.t)
    (description : string) : Invoice.t :=
  let invoice_id :=
    sha256 (context_id ++ ":" ++ amount ++ ":" ++ time_time clk) in
  let recipient_address :=
    match PyDict.get (PaymentMethod.value currency)
                     (PaymentManager.wallet_addresses self) with
    | Some a => a
    | None => ""
    end in
  {| Invoice.invoice_id := invoice_id;
     Invoice.context_id := context_id;
     Invoice.amount := amount;
     Invoice.currency := PaymentMethod.value currency;
     Invoice.recipient_address := recipient_address;
     Invoice.recipient_did := PaymentManager.node_did self;
     Invoice.description := description;
     Invoice.created := {| instant := utcnow clk; zulu := true |};
     Invoice.qr_code_data :=
       _generate_payment_uri self currency recipient_address amount |}.

Definition is_confirmed (receipt : PaymentReceipt.t) : bool :=
  String.eqb (PaymentReceipt.status receipt)
             (PaymentStatus.value PaymentStatus.CONFIRMED).

(** The revenue loop: confirmed amounts are added up per currency. *)
Fixpoint revenue_loop (receipts : list PaymentReceipt.t)
    (total_revenue : PyDict.t PyDecimal.t) : PyDict.t PyDecimal.t :=
  match receipts with
  | [] => total_revenue
  | receipt :: rest =>
      if is_confirmed receipt
      then
        let currency := PaymentReceipt.currency receipt in
        let so_far :=
          match PyDict.get currency total_revenue with
          | Some v => v
          | None => PyDecimalSum.zero
          end in
        revenue_loop rest
          (PyDict.set currency
             (PyDecimalSum.add so_far (PaymentReceipt.amount receipt))
             total_revenue)
      else revenue_loop rest total_revenue
  end.

Definition get_pricing_stats (self : PaymentManager.t) : PricingStats.t :=
  let total_receipts :=
    Z.of_nat (List.length (PaymentManager.payment_receipts self)) in
  let confirmed_payments :=
    Z.of_nat (List.length
                (filter is_confirmed (PaymentManager.receipts self))) in
  {| PricingStats.total_receipts := total_receipts;
     PricingStats.confirmed_payments := confirmed_payments;
     PricingStats.pending_payments := total_receipts - confirmed_payments;
     PricingStats.total_revenue :=
       revenue_loop (PaymentManager.receipts self) [];
     PricingStats.open_channels :=
       Z.of_nat
         (List.length
            (filter (fun c => String.eqb (PaymentChannel.status c) "open")
                    (PyDict.values (PaymentManager.payment_channels self))));
     PricingStats.monetized_contexts :=
       Z.of_nat (List.length (PaymentManager.payment_requirements self)) |}.

End Billing.

Module FlowRule.

(** Every registered receipt reference designates a receipt object. *)
Definition refs_valid (self : PaymentManager.t) : Prop :=
  Forall (fun r => (r < List.length (PaymentManager.receipt_objects self))%nat)
         (PyDict.values (PaymentManager.payment_receipts self)).

(** The managers that calls can produce from a new one. *)
Definition reachable `{Primitives} `{PaymentVerifier}
    (self : PaymentManager.t) : Prop :=
  exists node_did storage_dir trace,
    self = PaymentManager.run (PaymentManager.init node_did storage_dir) trace.

(** The currencies [verify_payment] has a verifier for. *)
Definition verifiable_currencies : list string :=
  ["bitcoin"; "ethereum"; "lightning"; "arweave_ar"].

(** The manager [self'] seen with the requirements of [self]. *)
Definition same_gate_state (self self' : PaymentManager.t) : Prop :=
  PaymentManager.node_did self' = PaymentManager.node_did self /\
  PaymentManager.receipts self' = PaymentManager.receipts self /\
  PaymentManager.payment_channels self'
  = PaymentManager.payment_channels self.

End FlowRule.

Module Scenario.

(** Stand-ins for the key operations: a signature is checked by
    rebuilding it from the public key. *)
Definition ed25519 : Ed25519 :=
  {| public_bytes := fun key => key;
     b64encode := fun b => b;
     sha256_bytes := fun b => "0123456789abcdef0123456789abcdef" ++ b;
     ed25519_verify :=
       fun public_key_b64 signature data =>
         String.eqb signature ("sig:" ++ public_key_b64) |}.

Definition blank_node : PsiNetNode.t :=
  {| PsiNetNode.did := None;
     PsiNetNode.private_key := None;
     PsiNetNode.contexts := [];
     PsiNetNode.chains := [];
     PsiNetNode.access_tokens := [] |}.

(** A node whose identity was loaded without its key. *)
Definition keyless_node : PsiNetNode.t :=
  {| PsiNetNode.did := Some "did:psinet:carol";
     PsiNetNode.private_key := None;
     PsiNetNode.contexts := [];
     PsiNetNode.chains := [];
     PsiNetNode.access_tokens := [] |}.

(** A bitcoin price of 0.0001 built outside any manager. *)
Definition btc_requirement : PaymentRequirement.t :=
  {| PaymentRequirement.pricing_model := "pay_per_access";
     PaymentRequirement.amount := PyDecimal.mk 1 (-4);
     PaymentRequirement.currency := "bitcoin";
     PaymentRequirement.recipient_address := "addr";
     PaymentRequirement.expires := None;
     PaymentRequirement.description := None;
     PaymentRequirement.metadata := None |}.



(** A memory unit of alice that is not yet hashed, holding [content]. *)
Definition draft_unit (content : Json.t) : ContextUnit.t :=
  {| ContextUnit.id := "";
     ContextUnit.type := "memory";
     ContextUnit.content := content;
     ContextUnit.owner := "did:psinet:alice";
     ContextUnit.previous := None;
     ContextUnit.timestamp := {| instant := 1000; zulu := true |};
     ContextUnit.signature := None;
     ContextUnit.metadata := None;
     ContextUnit.storage_refs := None |}.

End Scenario.

(** * Properties *)

(** ** Basic facts *)

Lemma opt_str_eqb_eq (a b : option string) : opt_str_eqb a b = true <-> a = b.
Proof.
  destruct a as [x|], b as [y|]; simpl; try (split; congruence).
  rewrite String.eqb_eq. split; congruence.
Qed.

Lemma opt_str_eqb_refl (a : option string) : opt_str_eqb a a = true.
Proof. now apply opt_str_eqb_eq. Qed.

Lemma append_assoc (a b c : string) :
  ((a ++ b) ++ c = a ++ (b ++ c))%string.
Proof. induction a as [|x a IH]; simpl; [reflexivity|now rewrite IH]. Qed.

Module PyDictFacts.

Lemma get_set_same {V : Type} (k : string) (v : V) (d : PyDict.t V) :
  PyDict.get k (PyDict.set k v d) = Some v.
Proof.
  induction d as [|[k' v'] d IH]; simpl.
  - now rewrite String.eqb_refl.
  - destruct (String.eqb k k') eqn:E; simpl; rewrite E; auto.
Qed.

Lemma get_set_other {V : Type} (k k' : string) (v : V) (d : PyDict.t V) :
  k' <> k -> PyDict.get k' (PyDict.set k v d) = PyDict.get k' d.
Proof.
  intros Hne. induction d as [|[k0 v0] d IH]; simpl.
  - destruct (String.eqb k' k) eqn:E; auto.
    apply String.eqb_eq in E. contradiction.
  - destruct (String.eqb k k0) eqn:E; simpl.
    + apply String.eqb_eq in E. subst k0.
      destruct (String.eqb k' k) eqn:E'; auto.
      apply String.eqb_eq in E'. contradiction.
    + now rewrite IH.
Qed.


End PyDictFacts.

(** ** Decimal arithmetic *)

Module PyDecimalFacts.
Import PyDecimal.







Lemma ge_le (a b : t) : ge a b = true <-> (to_Q b <= to_Q a)%Q.
Proof. unfold ge. apply Qle_bool_iff. Qed.















End PyDecimalFacts.

(** ** Capability tokens *)

Module CapabilityAccess.
Import PsiNetNode.

Lemma is_expired_false (now : Z) (token : AccessToken.t) :
  AccessToken.is_expired now token = Ok false <->
  zulu (AccessToken.expires token) = false /\
  now <= instant (AccessToken.expires token).
Proof.
  unfold AccessToken.is_expired, fromisoformat, utcnow_gt.
  destruct (zulu (AccessToken.expires token)).
  - split; [discriminate|intros [? _]; discriminate].
  - split.
    + intros H. injection H as H. split; [reflexivity|].
      destruct (Z.gtb_spec now (instant (AccessToken.expires token)));
        [discriminate|lia].
    + intros [_ H].
      destruct (Z.gtb_spec now (instant (AccessToken.expires token)));
        [lia|reflexivity].
Qed.

(** On a token whose expiry text carries no "Z" the three tests are
    made in order and each failure answers [False]. *)
Lemma check_access_naive (self : t) (now : Z) (token : AccessToken.t)
    (capability : AccessCapability.t) (context_id : option string) :
  zulu (AccessToken.expires token) = false ->
  check_access self now token capability context_id =
  Ok (negb (now >? instant (AccessToken.expires token))
      && String.eqb (AccessToken.capability token)
                    (AccessCapability.value capability)
      && negb (truthy context_id
               && negb (opt_str_eqb (AccessToken.context_id token)
                                    context_id))).
Proof.
  intros Hz. unfold check_access, AccessToken.is_expired, fromisoformat.
  rewrite Hz. simpl.
  destruct (now >? instant (AccessToken.expires token)); simpl; [reflexivity|].
  destruct (String.eqb _ _); simpl; [|reflexivity].
  destruct (truthy context_id && _); reflexivity.
Qed.

(** Fail-closed on such tokens: expiry passed, another capability, or a
    named context other than the bound one, each gives [False]. *)
Lemma check_access_naive_denies (self : t) (now : Z) (token : AccessToken.t)
    (capability : AccessCapability.t) (context_id : option string) :
  zulu (AccessToken.expires token) = false ->
  now > instant (AccessToken.expires token) \/
  AccessToken.capability token <> AccessCapability.value capability \/
  (truthy context_id = true /\ AccessToken.context_id token <> context_id) ->
  check_access self now token capability context_id = Ok false.
Proof.
  intros Hz H. rewrite check_access_naive by assumption. f_equal.
  destruct H as [H|[H|[Ht H]]].
  - destruct (Z.gtb_spec now (instant (AccessToken.expires token)));
      [reflexivity|lia].
  - apply String.eqb_neq in H. rewrite H. now rewrite andb_false_r.
  - rewrite Ht. destruct (opt_str_eqb _ _) eqn:E.
    + apply opt_str_eqb_eq in E. contradiction.
    + simpl. now rewrite andb_false_r.
Qed.

(** C5 (defect in the code).  [grant_access] writes the expiry as
    [isoformat() + "Z"] and [AccessToken.is_expired] parses that text
    unchanged, so comparing it with the naive [utcnow()] raises:
    [check_access] raises on every token that [grant_access] issued,
    whatever the clock, the required capability and the queried
    context; it does not answer [False]. *)
Theorem check_access_raises_on_granted_token `{Primitives}
    (self : t) (clk : clock) (capability : AccessCapability.t)
    (granted_to_did : string) (context_id : option string)
    (expires_in_hours : Z) (token : AccessToken.t) (self' : t) :
  grant_access self clk capability granted_to_did context_id expires_in_hours
  = Ok (token, self') ->
  forall (node : t) (now : Z) (required : AccessCapability.t)
         (queried : option string),
    raises (check_access node now token required queried).
Proof.
  unfold grant_access. intros Hg node now required queried.
  destruct (did self) as [d|]; [|discriminate].
  destruct (String.eqb d ""); [discriminate|].
  injection Hg as Htok _. subst token.
  unfold check_access, AccessToken.is_expired. simpl. exact I.
Qed.

Lemma check_access_raises_on_granted_token_witness :
  (exists self',
     @grant_access Sample.primitives Sample.node Sample.clock0
       AccessCapability.READ "did:psinet:bob" (Some "ctx-a") 24
     = Ok (Sample.granted_token, self')) /\
  raises (check_access Sample.node 2000 Sample.granted_token
            AccessCapability.WRITE (Some "ctx-a")).
Proof.
  split.
  - eexists. vm_compute. reflexivity.
  - apply (@check_access_raises_on_granted_token Sample.primitives
             Sample.node Sample.clock0 AccessCapability.READ
             "did:psinet:bob" (Some "ctx-a") 24 Sample.granted_token
             (with_access_tokens [Sample.granted_token] Sample.node)).
    vm_compute. reflexivity.
Defined.






End CapabilityAccess.

(** ** Content addressing and chains *)

Module Ledger.
Import PsiNetNode ChainRule.

(** The hash reads the five fields and nothing else. *)
Lemma content_hash_fields `{Primitives} (u v : ContextUnit.t) :
  ContextUnit.type u = ContextUnit.type v ->
  ContextUnit.content u = ContextUnit.content v ->
  ContextUnit.owner u = ContextUnit.owner v ->
  ContextUnit.previous u = ContextUnit.previous v ->
  ContextUnit.timestamp u = ContextUnit.timestamp v ->
  ContextUnit.content_hash u = ContextUnit.content_hash v.
Proof.
  intros Ht Hc Ho Hp Hs.
  unfold ContextUnit.content_hash, ContextUnit.hashed_fields.
  now rewrite Ht, Hc, Ho, Hp, Hs.
Qed.

(** The serialised payload: keys in sorted order, the default
    separators. *)
Lemma dumps_hashed_fields (ty : string) (content : Json.t) (owner : string)
    (previous : option string) (ts : string) :
  Json.dumps
    (Json.JDict [ ("type", Json.JStr ty); ("content", content);
                  ("owner", Json.JStr owner);
                  ("previous", Json.of_option previous);
                  ("timestamp", Json.JStr ts) ])
  = ("{" ++ Json.quote "content" ++ ": " ++ Json.dumps content
      ++ ", " ++ Json.quote "owner" ++ ": " ++ Json.quote owner
      ++ ", " ++ Json.quote "previous" ++ ": "
      ++ Json.dumps (Json.of_option previous)
      ++ ", " ++ Json.quote "timestamp" ++ ": " ++ Json.quote ts
      ++ ", " ++ Json.quote "type" ++ ": " ++ Json.quote ty ++ "}")%string.
Proof.
  unfold Json.dumps at 1.
  cbn -[Json.dumps Json.quote String.append].
  unfold Json.render_item. cbn [fst snd].
  rewrite !append_assoc. reflexivity.
Qed.

(** C3.  A node with a bound identity always creates the unit, and the
    id of the created unit is the SHA-256 digest of the sorted-key JSON
    text of the five fields type, content, owner, previous and
    timestamp; the unit is stored under that id, and recomputing its
    content hash gives the id back. *)
Theorem create_context_content_addressed `{Primitives}
    (self : t) (clk : clock) (context_type : ContextType.t)
    (content : Json.t) (previous : option string)
    (metadata : option Json.t) (d : string) :
  did self = Some d -> d <> "" ->
  exists context self',
    create_context self clk context_type content previous metadata
    = Ok (context, self') /\
    ContextUnit.id context
    = sha256
        (Json.dumps
           (Json.JDict
              [ ("type", Json.JStr (ContextType.value context_type));
                ("content", content);
                ("owner", Json.JStr d);
                ("previous", Json.of_option previous);
                ("timestamp",
                 Json.JStr (isoformat (utcnow clk) ++ "Z")) ])) /\
    ContextUnit.content_hash context = ContextUnit.id context /\
    PyDict.get (ContextUnit.id context) (contexts self') = Some context.
Proof.
  intros Hd Hne. unfold create_context. rewrite Hd.
  apply String.eqb_neq in Hne. cbn [truthy]. rewrite Hne. cbn [negb].
  destruct (CRYPTO_AVAILABLE && is_some (private_key self)) eqn:Ec.
  - unfold _sign_context.
    destruct (private_key self) as [key|] eqn:Ek.
    + cbn [bind]. eexists. eexists. split; [reflexivity|].
      cbn [fst snd with_contexts contexts]. split; [reflexivity|].
      split; [reflexivity|]. apply PyDictFacts.get_set_same.
    + rewrite andb_false_r in Ec. discriminate.
  - cbn [bind]. eexists. eexists. split; [reflexivity|].
    cbn [fst snd with_contexts contexts]. split; [reflexivity|].
    split; [reflexivity|]. apply PyDictFacts.get_set_same.
Qed.

Lemma create_context_content_addressed_witness :
  exists context self',
    @create_context Sample.primitives Sample.node Sample.clock0
      ContextType.MEMORY (Json.JDict [("memory", Json.JStr "x")]) None None
    = Ok (context, self') /\
    ContextUnit.id context
    = @sha256 Sample.primitives
        (Json.dumps
           (Json.JDict
              [ ("type", Json.JStr "memory");
                ("content", Json.JDict [("memory", Json.JStr "x")]);
                ("owner", Json.JStr "did:psinet:alice");
                ("previous", Json.JNull);
                ("timestamp",
                 Json.JStr (@isoformat Sample.primitives 1000 ++ "Z")) ])) /\
    @ContextUnit.content_hash Sample.primitives context
    = ContextUnit.id context /\
    PyDict.get (ContextUnit.id context) (contexts self') = Some context.
Proof.
  apply (@create_context_content_addressed Sample.primitives Sample.node
           Sample.clock0 ContextType.MEMORY
           (Json.JDict [("memory", Json.JStr "x")]) None None
           "did:psinet:alice").
  - reflexivity.
  - discriminate.
Defined.

(** Without a bound identity nothing is created. *)
Lemma create_context_identity_required `{Primitives}
    (self : t) (clk : clock) (context_type : ContextType.t)
    (content : Json.t) (previous : option string)
    (metadata : option Json.t) :
  truthy (did self) = false ->
  raises (create_context self clk context_type content previous metadata).
Proof. intros Hd. unfold create_context. rewrite Hd. exact I. Qed.

(** The loop of [verify_chain] accepts exactly the id lists in which
    every position passes, the expected pointer being [p] at the first
    position and the id listed before elsewhere. *)
Lemma verify_links_spec `{Primitives} (store : PyDict.t ContextUnit.t)
    (ids : list string) :
  forall p,
    verify_links store p ids = true <->
    (forall i context_id,
        nth_error ids i = Some context_id ->
        unit_ok store (match i with O => p | S j => nth_error ids j end)
                context_id).
Proof.
  induction ids as [|c rest IH]; intros p.
  - simpl. split; [|reflexivity].
    intros _ i context_id Hn. destruct i; discriminate.
  - cbn [verify_links]. split.
    + destruct (PyDict.get c store) as [u|] eqn:G; [|discriminate].
      destruct (opt_str_eqb (ContextUnit.previous u) p) eqn:Ep;
        [|discriminate].
      destruct (String.eqb (ContextUnit.id u) (ContextUnit.content_hash u))
        eqn:Eh; [|discriminate].
      cbn [negb]. intros Hrest i context_id Hn. destruct i as [|i].
      * injection Hn as <-. exists u.
        apply opt_str_eqb_eq in Ep. apply String.eqb_eq in Eh. auto.
      * cbn [nth_error] in Hn.
        pose proof (proj1 (IH (Some c)) Hrest i context_id Hn) as Hu.
        destruct i; exact Hu.
    + intros Hall.
      destruct (Hall O c eq_refl) as (u & G & Hp & Hh).
      rewrite G. apply opt_str_eqb_eq in Hp. rewrite Hp.
      apply String.eqb_eq in Hh. rewrite Hh. cbn [negb].
      apply IH. intros i context_id Hn.
      specialize (Hall (S i) context_id Hn). destruct i; exact Hall.
Qed.

(** What failing a position means: the unit is missing, or its
    [previous] is not the expected id, or its id is not its hash. *)
Lemma unit_ok_cases `{Primitives} (store : PyDict.t ContextUnit.t)
    (expected : option string) (context_id : string) :
  ~ unit_ok store expected context_id <->
  match PyDict.get context_id store with
  | None => True
  | Some context =>
      ContextUnit.previous context <> expected \/
      ContextUnit.id context <> ContextUnit.content_hash context
  end.
Proof.
  unfold unit_ok. destruct (PyDict.get context_id store) as [u|].
  - split.
    + intros Hn.
      destruct (opt_str_eqb (ContextUnit.previous u) expected) eqn:Ep.
      * apply opt_str_eqb_eq in Ep. right. intros Hh. apply Hn. eauto.
      * left. intros Hp. apply opt_str_eqb_eq in Hp. congruence.
    + intros Hc (u' & G & Hp & Hh). injection G as <-. tauto.
  - split; [trivial|]. intros _ (u & G & _). discriminate.
Qed.

Lemma prior_app (pre : list string) (context_id : string)
    (rest : list string) :
  prior (pre ++ context_id :: rest) (List.length pre)
  = prior pre (List.length pre).
Proof.
  unfold prior. destruct (List.length pre) as [|j] eqn:E; [reflexivity|].
  apply nth_error_app1. lia.
Qed.

(** C4.  For a registered chain, [verify_chain] answers [True] exactly
    when every listed unit is in the store, links to the id listed
    before it (none for the first) and carries its recomputed content
    hash; a listed unit that fails one of the three tests makes the
    answer [False] whatever is listed after it. *)
Theorem verify_chain_spec `{Primitives} (self : t) (chain_id : string)
    (chain : ContextChain.t) :
  PyDict.get chain_id (chains self) = Some chain ->
  (verify_chain self chain_id = true <->
   chain_valid (contexts self) (ContextChain.contexts chain)) /\
  (forall pre context_id rest,
      ContextChain.contexts chain = (pre ++ context_id :: rest)%list ->
      ~ unit_ok (contexts self) (prior pre (List.length pre)) context_id ->
      verify_chain self chain_id = false /\
      forall rest',
        verify_links (contexts self) None (pre ++ context_id :: rest')
        = false).
Proof.
  intros Hc. unfold verify_chain. rewrite Hc. split.
  - apply verify_links_spec.
  - intros pre context_id rest Hids Hbad.
    assert (Hfalse : forall rest',
               verify_links (contexts self) None (pre ++ context_id :: rest')
               = false).
    { intros rest'.
      destruct (verify_links (contexts self) None
                  (pre ++ context_id :: rest')) eqn:E; [exfalso|reflexivity].
      apply Hbad. rewrite <- (prior_app pre context_id rest').
      apply (proj1 (verify_links_spec (contexts self) _ None) E).
      rewrite nth_error_app2, Nat.sub_diag by lia. reflexivity. }
    split; [|exact Hfalse]. rewrite Hids. apply Hfalse.
Qed.

Lemma verify_chain_spec_witness :
  @verify_chain Sample.primitives Sample.ledger
    (ContextChain.chain_id Sample.ledger_chain) = true <->
  @chain_valid Sample.primitives (contexts Sample.ledger)
    (ContextChain.contexts Sample.ledger_chain).
Proof.
  apply (@verify_chain_spec Sample.primitives Sample.ledger
           (ContextChain.chain_id Sample.ledger_chain) Sample.ledger_chain).
  vm_compute. reflexivity.
Defined.

(** An unregistered chain id is refused. *)
Lemma verify_chain_unknown `{Primitives} (self : t) (chain_id : string) :
  PyDict.get chain_id (chains self) = None ->
  verify_chain self chain_id = false.
Proof. intros Hc. unfold verify_chain. now rewrite Hc. Qed.

(** The scenario: the chain of the two fresh units verifies; once B's
    [previous] is reset to none it does not. *)
Example verify_chain_sample :
  @verify_chain Sample.primitives Sample.ledger
    (ContextChain.chain_id Sample.ledger_chain) = true.
Proof. vm_compute. reflexivity. Qed.

Example verify_chain_sample_tampered :
  match Sample.ledger_run with
  | Ok (_, b, c, n) =>
      @verify_chain Sample.primitives
        (with_contexts
           (PyDict.set (ContextUnit.id b)
              {| ContextUnit.id := ContextUnit.id b;
                 ContextUnit.type := ContextUnit.type b;
                 ContextUnit.content := ContextUnit.content b;
                 ContextUnit.owner := ContextUnit.owner b;
                 ContextUnit.previous := None;
                 ContextUnit.timestamp := ContextUnit.timestamp b;
                 ContextUnit.signature := ContextUnit.signature b;
                 ContextUnit.metadata := ContextUnit.metadata b;
                 ContextUnit.storage_refs := ContextUnit.storage_refs b |}
              (contexts n)) n)
        (ContextChain.chain_id c)
  | Raise _ => true
  end = false.
Proof. vm_compute. reflexivity. Qed.

End Ledger.

(** ** The payment gate *)

Module PaymentGate.
Import PaymentManager GateRule.

(** The requirement's expiry test never raises: the "Z" is stripped
    before parsing. *)
Lemma requirement_is_expired (now : Z) (requirement : PaymentRequirement.t) :
  PaymentRequirement.is_expired now requirement
  = Ok match PaymentRequirement.expires requirement with
       | None => false
       | Some e => now >? instant e
       end.
Proof.
  unfold PaymentRequirement.is_expired.
  destruct (PaymentRequirement.expires requirement); reflexivity.
Qed.

Lemma channel_covers_spec (self : t) (requester_did : string)
    (amount : PyDecimal.t) (channel : PaymentChannel.t) :
  channel_covers self requester_did amount channel = true <->
  channel_eligible self requester_did amount channel.
Proof.
  unfold channel_covers, channel_eligible,
    PaymentChannel.has_sufficient_balance.
  rewrite !andb_true_iff, !String.eqb_eq, PyDecimalFacts.ge_le. tauto.
Qed.

Lemma already_paid_spec (self : t) (context_id requester_did : string) :
  existsb (already_paid context_id requester_did) (receipts self) = true <->
  paid self context_id requester_did.
Proof.
  unfold paid. rewrite existsb_exists.
  split; intros (receipt & Hin & H); exists receipt; (split; [exact Hin|]).
  - unfold already_paid in H.
    rewrite !andb_true_iff, !String.eqb_eq, opt_str_eqb_eq in H. tauto.
  - unfold already_paid.
    rewrite !andb_true_iff, !String.eqb_eq, opt_str_eqb_eq. tauto.
Qed.

(** The channel loop pays from the first channel that passes the test
    and touches no other. *)
Lemma pay_via_channel_some (covers : PaymentChannel.t -> bool)
    (amount : PyDecimal.t) (channels channels' : PyDict.t PaymentChannel.t) :
  pay_via_channel covers amount channels = Some channels' ->
  exists pre k channel rest,
    channels = (pre ++ (k, channel) :: rest)%list /\
    Forall (fun x => covers (snd x) = false) pre /\
    covers channel = true /\
    channels'
    = (pre ++ (k, PaymentChannel.set_current_balance
                    (PyDecimal.sub (PaymentChannel.current_balance channel)
                                   amount) channel) :: rest)%list.
Proof.
  revert channels'.
  induction channels as [|[k channel] rest IH]; intros channels' H;
    [discriminate|].
  cbn [pay_via_channel] in H. destruct (covers channel) eqn:Ec.
  - injection H as <-. exists [], k, channel, rest. auto.
  - destruct (pay_via_channel covers amount rest) as [rest'|];
      [|discriminate].
    injection H as <-.
    destruct (IH rest' eq_refl) as (pre & k' & ch & tl & -> & Hpre & Hc & ->).
    exists ((k, channel) :: pre), k', ch, tl. repeat split; auto.
Qed.


Lemma lapsed_iff (self : t) (now : Z) (context_id : string)
    (requirement : PaymentRequirement.t) :
  PyDict.get context_id (payment_requirements self) = Some requirement ->
  lapsed self now context_id <->
  match PaymentRequirement.expires requirement with
  | None => false
  | Some e => now >? instant e
  end = true.
Proof.
  intros Hg. unfold lapsed. split.
  - intros (r & e & Hr & He & Hlt). rewrite Hg in Hr. injection Hr as <-.
    rewrite He. apply Z.gtb_lt. lia.
  - destruct (PaymentRequirement.expires requirement) as [e|] eqn:He;
      [|discriminate].
    intros Hlt. apply Z.gtb_lt in Hlt. exists requirement, e.
    repeat split; auto. lia.
Qed.




(** The scenario of the channel of capacity 0.01: three accesses priced
    0.0001 leave 0.0097, and a price of 0.02 is answered 402. *)
Example micro_payments :
  let m := Sample.run_sample
    [ (Sample.clock0, Open_payment_channel "did:psinet:bob"
                        (PyDecimal.mk 1 (-2)) PaymentMethod.BITCOIN 30);
      (Sample.clock0, Create_payment_requirement "c1"
                        PricingModel.PAY_PER_ACCESS (PyDecimal.mk 1 (-4))
                        PaymentMethod.BITCOIN "addr" (Some 24) None);
      (Sample.clock0, Create_payment_requirement "c2"
                        PricingModel.PAY_PER_ACCESS (PyDecimal.mk 1 (-4))
                        PaymentMethod.BITCOIN "addr" (Some 24) None);
      (Sample.clock0, Create_payment_requirement "c3"
                        PricingModel.PAY_PER_ACCESS (PyDecimal.mk 1 (-4))
                        PaymentMethod.BITCOIN "addr" (Some 24) None);
      (Sample.clock0, Create_payment_requirement "c4"
                        PricingModel.PAY_PER_ACCESS (PyDecimal.mk 2 (-2))
                        PaymentMethod.BITCOIN "addr" (Some 24) None);
      (Sample.clock1, Check_payment_for_context "c1" "did:psinet:bob");
      (Sample.clock1, Check_payment_for_context "c2" "did:psinet:bob");
      (Sample.clock1, Check_payment_for_context "c3" "did:psinet:bob") ] in
  map (fun ch => PaymentChannel.current_balance ch)
      (PyDict.values (payment_channels m)) = [PyDecimal.mk 97 (-4)] /\
  exists r,
    check_payment_for_context m 2000 "c4" "did:psinet:bob" = Ok (Some r, m) /\
    X402Response.status_code r = 402.
Proof.
  split; [vm_compute; reflexivity|].
  eexists. split; [vm_compute; reflexivity|reflexivity].
Qed.

(** C7 as stated does not hold: the channel of [Sample.micro_manager]
    expired one day after instant 1000; at instant 10^12 it is still
    open, and the call grants access and deducts 0.0001 from it. *)
Lemma expired_channel_is_charged_counterexample :
  exists k channel channel' self',
    payment_channels Sample.micro_manager = [(k, channel)] /\
    instant (PaymentChannel.expires channel) < 1000000000000 /\
    check_payment_for_context Sample.micro_manager 1000000000000 "ctx-a"
      "did:psinet:bob" = Ok (None, self') /\
    payment_channels self' = [(k, channel')] /\
    PaymentChannel.current_balance channel = PyDecimal.mk 1 (-2) /\
    PaymentChannel.current_balance channel' = PyDecimal.mk 99 (-4).
Proof.
  do 4 eexists.
  split; [vm_compute; reflexivity|].
  split; [vm_compute; reflexivity|].
  split; [vm_compute; reflexivity|].
  repeat split; reflexivity.
Qed.

Lemma channel_covers_set_expires (self : t) (requester_did : string)
    (amount : PyDecimal.t) (e : isotime) (channel : PaymentChannel.t) :
  channel_covers self requester_did amount
    (PaymentChannel.set_expires e channel)
  = channel_covers self requester_did amount channel.
Proof. reflexivity. Qed.

Lemma pay_via_channel_retime (self : t) (requester_did : string)
    (amount : PyDecimal.t) (f : string -> isotime)
    (channels : PyDict.t PaymentChannel.t) :
  pay_via_channel (channel_covers self requester_did amount) amount
    (retime f channels)
  = option_map (retime f)
      (pay_via_channel (channel_covers self requester_did amount) amount
         channels).
Proof.
  induction channels as [|[k channel] rest IH]; [reflexivity|].
  cbn [retime map pay_via_channel fst snd].
  rewrite channel_covers_set_expires.
  destruct (channel_covers self requester_did amount channel);
    [reflexivity|].
  fold (retime f rest). rewrite IH.
  destruct (pay_via_channel _ amount rest); reflexivity.
Qed.

(** C7 (amended).  The clock is compared with the expiry of the payment
    requirement only.  The [expires] of a channel is never read:
    replacing the expiry texts of the channels by any others leaves the
    answer unchanged and the same channel charged by the same amount. *)
Theorem check_payment_ignores_channel_expiry (self : t) (now : Z)
    (context_id requester_did : string) (f : string -> isotime) :
  check_payment_for_context
    (with_payment_channels (retime f (payment_channels self)) self)
    now context_id requester_did
  = match check_payment_for_context self now context_id requester_did with
    | Ok (response, self') =>
        Ok (response,
            with_payment_channels (retime f (payment_channels self')) self')
    | Raise e => Raise e
    end.
Proof.
  unfold check_payment_for_context.
  cbn [with_payment_channels payment_requirements payment_channels].
  destruct (PyDict.get context_id (payment_requirements self))
    as [requirement|]; [|reflexivity].
  rewrite requirement_is_expired. cbn [bind].
  destruct (match PaymentRequirement.expires requirement with
            | None => false
            | Some e => now >? instant e
            end); [reflexivity|].
  change (receipts (with_payment_channels
                      (retime f (payment_channels self)) self))
    with (receipts self).
  destruct (existsb (already_paid context_id requester_did) (receipts self));
    [reflexivity|].
  change (channel_covers
            (with_payment_channels (retime f (payment_channels self)) self))
    with (channel_covers self).
  rewrite pay_via_channel_retime.
  destruct (pay_via_channel _ _ (payment_channels self)); reflexivity.
Qed.

End PaymentGate.

(** ** Receipts *)

Module Receipts.
Import PaymentManager.

Lemma nth_error_snoc {A : Type} (l : list A) (x : A) :
  nth_error (l ++ [x]) (List.length l) = Some x.
Proof. rewrite nth_error_app2, Nat.sub_diag by lia. reflexivity. Qed.




End Receipts.

(** ** The channel balance invariant *)

Module ChannelInvariant.
Import PaymentManager GateRule.














End ChannelInvariant.

(** ** Queries over the stored units *)

Module QueryFacts.
Import Query.

(** One turn of the loop: a unit the filters let through is appended,
    and the loop stops once [limit] results are reached. *)
Lemma query_loop_step (context_type : option ContextType.t)
    (owner : option string) (after : option isotime) (limit : Z)
    (c : ContextUnit.t) (rest results : list ContextUnit.t) :
  query_loop context_type owner after limit (c :: rest) results
  = if selected context_type owner after c
    then if Z.of_nat (List.length (results ++ [c])) >=? limit
         then Ok (results ++ [c])%list
         else query_loop context_type owner after limit rest
                (results ++ [c])%list
    else query_loop context_type owner after limit rest results.
Proof.
  cbn [query_loop]. unfold selected.
  destruct context_type as [ct|];
    [destruct (String.eqb (ContextUnit.type c) (ContextType.value ct))|];
    cbn [negb andb]; try reflexivity;
    (destruct owner as [o|];
     [cbn [truthy]; destruct (String.eqb o ""); cbn [negb andb orb];
      [|destruct (String.eqb (ContextUnit.owner c) o); cbn [negb andb];
        [|reflexivity]]|]);
    (destruct after as [a|]; [|reflexivity]);
    cbn [fromisoformat replace_Z zulu instant datetime_le bind];
    rewrite Z.ltb_antisym;
    destruct (instant (ContextUnit.timestamp c) <=? instant a);
    reflexivity.
Qed.

(** Started with fewer results than the number it stops at, the loop
    appends the first matches still needed. *)
Lemma query_loop_spec (context_type : option ContextType.t)
    (owner : option string) (after : option isotime) (limit : Z)
    (values : list ContextUnit.t) :
  forall results,
    (List.length results < Z.to_nat (Z.max 1 limit))%nat ->
    query_loop context_type owner after limit values results
    = Ok (results
            ++ firstn (Z.to_nat (Z.max 1 limit) - List.length results)
                      (filter (selected context_type owner after) values))%list.
Proof.
  induction values as [|c rest IH]; intros results Hlen.
  - cbn. rewrite firstn_nil, app_nil_r. reflexivity.
  - rewrite query_loop_step. cbn [filter].
    destruct (selected context_type owner after c); [|now apply IH].
    rewrite length_app. cbn [List.length].
    destruct (Z.of_nat (List.length results + 1) >=? limit) eqn:E.
    + apply Z.geb_le in E.
      replace (Z.to_nat (Z.max 1 limit) - List.length results)%nat
        with 1%nat by lia.
      reflexivity.
    + rewrite Z.geb_leb in E. apply Z.leb_gt in E.
      rewrite IH by (rewrite length_app; cbn; lia).
      rewrite length_app. cbn [List.length].
      replace (Z.to_nat (Z.max 1 limit) - List.length results)%nat
        with (S (Z.to_nat (Z.max 1 limit) - (List.length results + 1)))%nat
        by lia.
      cbn [firstn]. now rewrite <- app_assoc.
Qed.


(** X2.  A [limit] of zero or less does not empty the answer: the test
    on the length comes after the append, so the first unit that passes
    the filters is returned alone. *)
Theorem query_contexts_limit_below_one (self : PsiNetNode.t)
    (context_type : option ContextType.t) (owner : option string)
    (after : option isotime) (limit : Z) :
  limit <= 1 ->
  query_contexts self context_type owner after limit
  = Ok match filter (selected context_type owner after)
                    (PyDict.values (PsiNetNode.contexts self)) with
       | [] => []
       | first :: _ => [first]
       end.
Proof.
  intros Hl. unfold query_contexts. rewrite query_loop_spec by (cbn; lia).
  replace (Z.to_nat (Z.max 1 limit) - List.length (@nil ContextUnit.t))%nat
    with 1%nat by (cbn; lia).
  cbn [app]. destruct (filter _ _); reflexivity.
Qed.

Lemma query_contexts_limit_below_one_witness :
  query_contexts Sample.ledger None None None 0
  = Ok match filter (selected None None None)
                    (PyDict.values (PsiNetNode.contexts Sample.ledger)) with
       | [] => []
       | first :: _ => [first]
       end /\
  exists first,
    query_contexts Sample.ledger None None None 0 = Ok [first].
Proof.
  split.
  - apply query_contexts_limit_below_one. lia.
  - eexists. vm_compute. reflexivity.
Defined.

End QueryFacts.

(** ** Building and re-verifying chains *)

Module ChainFacts.
Import PsiNetNode ChainRule.

(** What a successful [create_context] leaves behind. *)
Lemma create_context_result `{Primitives} (self : t) (clk : clock)
    (context_type : ContextType.t) (content : Json.t)
    (previous : option string) (metadata : option Json.t)
    (context : ContextUnit.t) (self' : t) :
  create_context self clk context_type content previous metadata
  = Ok (context, self') ->
  ContextUnit.previous context = previous /\
  ContextUnit.id context = ContextUnit.content_hash context /\
  contexts self' = PyDict.set (ContextUnit.id context) context (contexts self) /\
  chains self' = chains self /\
  did self' = did self /\
  private_key self' = private_key self /\
  ContextUnit.signature context
  = (if CRYPTO_AVAILABLE && is_some (private_key self)
     then match _sign_context self context with
          | Ok s => Some s
          | Raise _ => None
          end
     else None).
Proof.
  unfold create_context.
  destruct (negb (truthy (did self))); [discriminate|].
  destruct (CRYPTO_AVAILABLE && is_some (private_key self)) eqn:Ec.
  - unfold _sign_context. destruct (private_key self) as [key|] eqn:Ek;
      [|rewrite andb_false_r in Ec; discriminate].
    cbn [bind]. intros Hr. injection Hr as <- <-. cbn. rewrite Ek.
    repeat split; reflexivity.
  - cbn [bind]. intros Hr. injection Hr as <- <-. cbn.
    repeat split; reflexivity.
Qed.

Lemma verify_links_set_other `{Primitives} (store : PyDict.t ContextUnit.t)
    (k : string) (v : ContextUnit.t) (ids : list string) :
  ~ In k ids ->
  forall p,
    verify_links (PyDict.set k v store) p ids = verify_links store p ids.
Proof.
  induction ids as [|c rest IH]; intros Hn p; [reflexivity|].
  cbn [verify_links].
  rewrite PyDictFacts.get_set_other by (intros ->; apply Hn; now left).
  destruct (PyDict.get c store) as [u|]; [|reflexivity].
  destruct (negb _); [reflexivity|]. destruct (negb _); [reflexivity|].
  apply IH. intros Hin. apply Hn. now right.
Qed.

Lemma verify_links_missing `{Primitives} (store : PyDict.t ContextUnit.t)
    (missing : string) (ids : list string) :
  In missing ids -> PyDict.get missing store = None ->
  forall p, verify_links store p ids = false.
Proof.
  induction ids as [|c rest IH]; intros Hin Hg p; [destruct Hin|].
  cbn [verify_links]. destruct Hin as [->|Hin].
  - now rewrite Hg.
  - destruct (PyDict.get c store) as [u|]; [|reflexivity].
    destruct (negb _); [reflexivity|]. destruct (negb _); [reflexivity|].
    now apply IH.
Qed.

(** X3.  [create_chain] checks nothing about the ids it is given: with
    a bound identity it registers the chain with exactly these ids and
    leaves the units alone, so verifying the new chain is the walk of
    the ids over the present store: an empty chain verifies, a chain
    naming an id that is not stored does not. *)
Theorem create_chain_unchecked `{Primitives} (self : t) (clk : clock)
    (context_ids : list string) (d : string) :
  did self = Some d -> d <> "" ->
  exists chain self',
    create_chain self clk context_ids = Ok (chain, self') /\
    ContextChain.contexts chain = context_ids /\
    ContextChain.owner chain = d /\
    PyDict.get (ContextChain.chain_id chain) (chains self') = Some chain /\
    contexts self' = contexts self /\
    verify_chain self' (ContextChain.chain_id chain)
    = verify_links (contexts self) None context_ids /\
    (context_ids = [] ->
     verify_chain self' (ContextChain.chain_id chain) = true) /\
    (forall missing,
        In missing context_ids ->
        PyDict.get missing (contexts self) = None ->
        verify_chain self' (ContextChain.chain_id chain) = false).
Proof.
  intros Hd Hne. unfold create_chain. rewrite Hd.
  apply String.eqb_neq in Hne. rewrite Hne.
  eexists. eexists. split; [reflexivity|]. cbn [ContextChain.contexts
    ContextChain.owner ContextChain.chain_id with_chains chains contexts].
  split; [reflexivity|]. split; [reflexivity|].
  split; [apply PyDictFacts.get_set_same|]. split; [reflexivity|].
  assert (Hv : forall s,
             verify_chain
               (with_chains
                  (PyDict.set (String.substring 0 16 (sha256 s))
                     {| ContextChain.chain_id :=
                          String.substring 0 16 (sha256 s);
                        ContextChain.contexts := context_ids;
                        ContextChain.owner := d;
                        ContextChain.created :=
                          {| instant := utcnow clk; zulu := true |} |}
                     (chains self)) self)
               (String.substring 0 16 (sha256 s))
             = verify_links (contexts self) None context_ids).
  { intros s. unfold verify_chain. cbn [with_chains chains contexts].
    now rewrite PyDictFacts.get_set_same. }
  split; [apply Hv|]. split.
  - intros ->. rewrite Hv. reflexivity.
  - intros missing Hin Hg. rewrite Hv. now apply (verify_links_missing _ missing).
Qed.

Lemma create_chain_unchecked_witness :
  exists chain self',
    @create_chain Sample.primitives Sample.node Sample.clock0 ["no-such-unit"]
    = Ok (chain, self') /\
    @verify_chain Sample.primitives self' (ContextChain.chain_id chain)
    = false.
Proof.
  destruct (@create_chain_unchecked Sample.primitives Sample.node
              Sample.clock0 ["no-such-unit"] "did:psinet:alice"
              eq_refl ltac:(discriminate))
    as (chain & self' & Hc & _ & _ & _ & _ & _ & _ & Hm).
  exists chain, self'. split; [exact Hc|].
  apply (Hm "no-such-unit"); [left; reflexivity|reflexivity].
Defined.

(** X4.  Two units created one after the other, the second with
    [previous] set to the id of the first, form a chain that verifies,
    provided their ids differ. *)
Theorem fresh_linked_pair_verifies `{Primitives}
    (self s1 s2 s3 : t) (clk1 clk2 clk3 : clock)
    (type1 type2 : ContextType.t) (content1 content2 : Json.t)
    (metadata1 metadata2 : option Json.t) (a b : ContextUnit.t)
    (chain : ContextChain.t) :
  create_context self clk1 type1 content1 None metadata1 = Ok (a, s1) ->
  create_context s1 clk2 type2 content2 (Some (ContextUnit.id a)) metadata2
  = Ok (b, s2) ->
  ContextUnit.id a <> ContextUnit.id b ->
  create_chain s2 clk3 [ContextUnit.id a; ContextUnit.id b] = Ok (chain, s3) ->
  verify_chain s3 (ContextChain.chain_id chain) = true.
Proof.
  intros Ha Hb Hne Hc.
  apply create_context_result in Ha.
  destruct Ha as (Hpa & Hia & Hsa & _ & _).
  apply create_context_result in Hb.
  destruct Hb as (Hpb & Hib & Hsb & _ & _).
  unfold create_chain in Hc. destruct (did s2) as [d|]; [|discriminate].
  destruct (String.eqb d ""); [discriminate|].
  injection Hc as <- <-. unfold verify_chain.
  cbn [with_chains chains contexts ContextChain.chain_id
         ContextChain.contexts].
  rewrite PyDictFacts.get_set_same. cbn [ContextChain.contexts].
  rewrite Hsb, Hsa. cbn [verify_links].
  rewrite PyDictFacts.get_set_other by exact Hne.
  rewrite PyDictFacts.get_set_same, Hpa. cbn [opt_str_eqb negb].
  rewrite <- Hia, String.eqb_refl. cbn [negb].
  rewrite PyDictFacts.get_set_same, Hpb. cbn [opt_str_eqb].
  rewrite String.eqb_refl. cbn [negb].
  rewrite <- Hib, String.eqb_refl. reflexivity.
Qed.

Lemma fresh_linked_pair_verifies_witness :
  @verify_chain Sample.primitives Sample.ledger
    (ContextChain.chain_id Sample.ledger_chain) = true.
Proof.
  eapply (@fresh_linked_pair_verifies Sample.primitives Sample.node _ _
            Sample.ledger Sample.clock0 Sample.clock1 Sample.clock2
            ContextType.MEMORY ContextType.MEMORY
            (Json.JDict [("memory", Json.JStr "x")])
            (Json.JDict [("memory", Json.JStr "y")]) None None _ _
            Sample.ledger_chain).
  - vm_compute. reflexivity.
  - vm_compute. reflexivity.
  - vm_compute. discriminate.
  - vm_compute. reflexivity.
Defined.

(** X5.  Creating a unit leaves the verdict on every registered chain
    that does not list the new unit's id as it was. *)
Theorem create_context_keeps_chain_verdicts `{Primitives} (self : t)
    (clk : clock) (context_type : ContextType.t) (content : Json.t)
    (previous : option string) (metadata : option Json.t)
    (context : ContextUnit.t) (self' : t) (chain_id : string)
    (chain : ContextChain.t) :
  create_context self clk context_type content previous metadata
  = Ok (context, self') ->
  PyDict.get chain_id (chains self) = Some chain ->
  ~ In (ContextUnit.id context) (ContextChain.contexts chain) ->
  verify_chain self' chain_id = verify_chain self chain_id.
Proof.
  intros Hc Hg Hn. apply create_context_result in Hc.
  destruct Hc as (_ & _ & Hs & Hch & _).
  unfold verify_chain. rewrite Hch, Hg, Hs.
  now apply verify_links_set_other.
Qed.

Lemma create_context_keeps_chain_verdicts_witness :
  exists context self',
    @create_context Sample.primitives Sample.ledger Sample.clock2
      ContextType.SKILL (Json.JDict [("skill", Json.JStr "z")]) None None
    = Ok (context, self') /\
    @verify_chain Sample.primitives self'
      (ContextChain.chain_id Sample.ledger_chain)
    = @verify_chain Sample.primitives Sample.ledger
        (ContextChain.chain_id Sample.ledger_chain).
Proof.
  eexists. eexists. split; [vm_compute; reflexivity|].
  eapply (@create_context_keeps_chain_verdicts Sample.primitives
            Sample.ledger Sample.clock2 ContextType.SKILL
            (Json.JDict [("skill", Json.JStr "z")]) None None _ _
            (ContextChain.chain_id Sample.ledger_chain) Sample.ledger_chain).
  - vm_compute. reflexivity.
  - vm_compute. reflexivity.
  - vm_compute. intros [H|[H|[]]]; discriminate.
Defined.

End ChainFacts.

(** ** What the access check reads *)

Module AccessFacts.
Import PsiNetNode.

Lemma capability_value_injective (a b : AccessCapability.t) :
  AccessCapability.value a = AccessCapability.value b -> a = b.
Proof. destruct a, b; intros H; try reflexivity; discriminate. Qed.


(** X7.  Capabilities are not ranked: a token that carries one
    capability is never granted a check that requires another one,
    whatever the clock, the expiry and the contexts. *)
Theorem capabilities_not_hierarchical (self : t) (now : Z)
    (token : AccessToken.t) (held required : AccessCapability.t)
    (context_id : option string) :
  AccessToken.capability token = AccessCapability.value held ->
  held <> required ->
  check_access self now token required context_id <> Ok true.
Proof.
  intros Hh Hne Hg. unfold check_access in Hg.
  destruct (AccessToken.is_expired now token) as [[|]|]; cbn [bind] in Hg;
    try discriminate.
  rewrite Hh in Hg.
  destruct (String.eqb_spec (AccessCapability.value held)
              (AccessCapability.value required)) as [He|He];
    cbn [negb] in Hg; [|discriminate].
  apply capability_value_injective in He. contradiction.
Qed.

Lemma capabilities_not_hierarchical_witness :
  check_access Sample.node 2000
    {| AccessToken.capability := "admin";
       AccessToken.granted_to := "did:psinet:bob";
       AccessToken.granted_by := "did:psinet:alice";
       AccessToken.expires := {| instant := 5000; zulu := false |};
       AccessToken.context_id := None;
       AccessToken.signature := None |}
    AccessCapability.READ None <> Ok true.
Proof.
  apply (capabilities_not_hierarchical Sample.node 2000 _
           AccessCapability.ADMIN AccessCapability.READ None).
  - reflexivity.
  - discriminate.
Defined.

(** X8.  The check reads the capability, the expiry and the bound
    context of a token and nothing else: the grantee, the grantor and
    the signature make no difference, nor does the node. *)
Theorem check_access_reads_three_fields (self self' : t) (now : Z)
    (token token' : AccessToken.t) (capability : AccessCapability.t)
    (context_id : option string) :
  AccessToken.capability token = AccessToken.capability token' ->
  AccessToken.expires token = AccessToken.expires token' ->
  AccessToken.context_id token = AccessToken.context_id token' ->
  check_access self now token capability context_id
  = check_access self' now token' capability context_id.
Proof.
  intros Hc He Hx. unfold check_access, AccessToken.is_expired.
  now rewrite Hc, He, Hx.
Qed.

Lemma check_access_reads_three_fields_witness :
  check_access Sample.node 2000 Sample.bound_token AccessCapability.READ
    (Some "ctx-a")
  = check_access Scenario.blank_node 2000
      {| AccessToken.capability := "read";
         AccessToken.granted_to := "did:psinet:mallory";
         AccessToken.granted_by := "did:psinet:mallory";
         AccessToken.expires := {| instant := 5000; zulu := false |};
         AccessToken.context_id := Some "ctx-a";
         AccessToken.signature := Some "forged" |}
      AccessCapability.READ (Some "ctx-a").
Proof.
  apply check_access_reads_three_fields; reflexivity.
Defined.

End AccessFacts.

(** ** Identity and unit signatures *)

Module IdentityFacts.
Import PsiNetNode Identity.

Lemma signed_text `{Primitives} (self : t) (key : string)
    (context : ContextUnit.t) :
  private_key self = Some key ->
  _sign_context self context = Ok (ed25519_sign key (sig_data context)).
Proof. intros Hk. unfold _sign_context. now rewrite Hk. Qed.

Lemma sig_data_ignores_signature `{Primitives} (s : option string)
    (context : ContextUnit.t) :
  sig_data (ContextUnit.with_signature s context) = sig_data context.
Proof. reflexivity. Qed.

(** X9.  With the cryptography library present, [generate_identity]
    binds the DID "did:psinet:" followed by the first 16 characters of
    the digest of the public key, and from then on every
    [create_context] succeeds, is owned by that DID and carries the
    signature of the new key over the unit's signed text. *)
Theorem generate_identity_enables_creation `{Primitives} `{Ed25519}
    (self : t) (clk : clock) (fresh_key : string) :
  CRYPTO_AVAILABLE = true ->
  exists doc s1,
    generate_identity self clk fresh_key = Ok (doc, s1) /\
    DIDDocument.did doc
    = "did:psinet:"
        ++ String.substring 0 16 (sha256_bytes (public_bytes fresh_key)) /\
    DIDDocument.public_key doc = b64encode (public_bytes fresh_key) /\
    contexts s1 = contexts self /\
    forall clk' context_type content previous metadata,
    exists context s2,
      create_context s1 clk' context_type content previous metadata
      = Ok (context, s2) /\
      ContextUnit.owner context = DIDDocument.did doc /\
      ContextUnit.signature context
      = Some (ed25519_sign fresh_key (sig_data context)).
Proof.
  intros Hc. unfold generate_identity. rewrite Hc. cbn [negb].
  eexists. eexists. split; [reflexivity|]. cbn [DIDDocument.did
    DIDDocument.public_key contexts].
  split; [reflexivity|]. split; [reflexivity|]. split; [reflexivity|].
  intros clk' context_type content previous metadata.
  unfold create_context, _sign_context.
  cbn [did private_key truthy String.eqb Ascii.eqb Bool.eqb negb is_some
         andb].
  rewrite Hc. cbn [andb bind].
  eexists. eexists. split; [reflexivity|]. split; reflexivity.
Qed.

Lemma generate_identity_enables_creation_witness :
  exists doc s1,
    @generate_identity Sample.primitives Scenario.ed25519
      Scenario.blank_node Sample.clock0 "key-1" = Ok (doc, s1) /\
    exists context s2,
      @create_context Sample.primitives s1 Sample.clock1 ContextType.MEMORY
        (Json.JDict [("memory", Json.JStr "x")]) None None
      = Ok (context, s2) /\
      ContextUnit.owner context = DIDDocument.did doc.
Proof.
  destruct (@generate_identity_enables_creation Sample.primitives
              Scenario.ed25519 Scenario.blank_node Sample.clock0 "key-1"
              eq_refl) as (doc & s1 & Hg & _ & _ & _ & Hc).
  exists doc, s1. split; [exact Hg|].
  destruct (Hc Sample.clock1 ContextType.MEMORY
              (Json.JDict [("memory", Json.JStr "x")]) None None)
    as (context & s2 & Hcc & Ho & _).
  exists context, s2. split; assumption.
Defined.

(** X10.  When a signature made with a key is accepted under that key's
    public half and is never the empty text, a unit created after
    [generate_identity] passes [verify_context] under the public key of
    the DID document, on any node. *)
Theorem created_unit_verifies `{Primitives} `{Ed25519}
    (self s1 s2 node : t) (clk clk' : clock) (fresh_key : string)
    (doc : DIDDocument.t) (context_type : ContextType.t) (content : Json.t)
    (previous : option string) (metadata : option Json.t)
    (context : ContextUnit.t) :
  (forall key data,
      ed25519_verify (b64encode (public_bytes key)) (ed25519_sign key data)
        data = true) ->
  (forall key data, ed25519_sign key data <> "") ->
  generate_identity self clk fresh_key = Ok (doc, s1) ->
  create_context s1 clk' context_type content previous metadata
  = Ok (context, s2) ->
  verify_context node context (DIDDocument.public_key doc) = true.
Proof.
  intros Hok Hne Hg Hc. unfold generate_identity in Hg.
  destruct CRYPTO_AVAILABLE eqn:Ea; cbn [negb] in Hg; [|discriminate].
  injection Hg as <- <-.
  unfold create_context, _sign_context in Hc.
  cbn [did private_key truthy String.eqb Ascii.eqb Bool.eqb negb is_some
         andb] in Hc.
  rewrite Ea in Hc. cbn [andb bind] in Hc. injection Hc as <- _.
  unfold verify_context. rewrite Ea.
  cbn [negb orb ContextUnit.signature ContextUnit.with_signature truthy
         DIDDocument.public_key].
  pose proof (Hne fresh_key) as Hn.
  match goal with
  | |- (if negb (negb (String.eqb ?s "")) then _ else _) = _ =>
      destruct (String.eqb_spec s "") as [E|_];
        [exfalso; exact (Hn _ E)|]
  end.
  cbn [negb]. apply Hok.
Qed.

Lemma created_unit_verifies_witness :
  exists doc s1 context s2,
    @generate_identity Sample.primitives Scenario.ed25519
      Scenario.blank_node Sample.clock0 "key-1" = Ok (doc, s1) /\
    @create_context Sample.primitives s1 Sample.clock1 ContextType.MEMORY
      (Json.JDict [("memory", Json.JStr "x")]) None None
    = Ok (context, s2) /\
    @verify_context Sample.primitives Scenario.ed25519 Scenario.blank_node
      context (DIDDocument.public_key doc) = true.
Proof.
  do 4 eexists. split; [vm_compute; reflexivity|].
  split; [vm_compute; reflexivity|].
  eapply (@created_unit_verifies Sample.primitives Scenario.ed25519
            Scenario.blank_node _ _ Scenario.blank_node Sample.clock0
            Sample.clock1 "key-1" _ ContextType.MEMORY
            (Json.JDict [("memory", Json.JStr "x")]) None None).
  - intros key data. cbn. apply String.eqb_refl.
  - intros key data. cbn. discriminate.
  - vm_compute. reflexivity.
  - vm_compute. reflexivity.
Defined.

(** X11.  A node that holds no key, or runs without the cryptography
    library, creates units that carry no signature, and
    [verify_context] refuses them under every public key. *)
Theorem keyless_unit_never_verifies `{Primitives} `{Ed25519}
    (self self' node : t) (clk : clock) (context_type : ContextType.t)
    (content : Json.t) (previous : option string)
    (metadata : option Json.t) (context : ContextUnit.t)
    (public_key_b64 : string) :
  create_context self clk context_type content previous metadata
  = Ok (context, self') ->
  CRYPTO_AVAILABLE = false \/ private_key self = None ->
  ContextUnit.signature context = None /\
  verify_context node context public_key_b64 = false.
Proof.
  intros Hc Hk. apply ChainFacts.create_context_result in Hc.
  destruct Hc as (_ & _ & _ & _ & _ & _ & Hs).
  assert (Hn : ContextUnit.signature context = None).
  { rewrite Hs. destruct Hk as [Ha|Hp].
    - now rewrite Ha.
    - rewrite Hp. now rewrite andb_false_r. }
  split; [exact Hn|]. unfold verify_context. rewrite Hn.
  cbn [truthy negb]. now rewrite orb_true_r.
Qed.

Lemma keyless_unit_never_verifies_witness :
  exists context self',
    @create_context Sample.primitives Scenario.keyless_node Sample.clock0
      ContextType.MEMORY (Json.JDict [("memory", Json.JStr "x")]) None None
    = Ok (context, self') /\
    @verify_context Sample.primitives Scenario.ed25519 Scenario.keyless_node
      context "any-key" = false.
Proof.
  eexists. eexists. split; [vm_compute; reflexivity|].
  eapply (@keyless_unit_never_verifies Sample.primitives Scenario.ed25519
            Scenario.keyless_node _ Scenario.keyless_node Sample.clock0
            ContextType.MEMORY (Json.JDict [("memory", Json.JStr "x")])
            None None).
  - vm_compute. reflexivity.
  - right. reflexivity.
Defined.

End IdentityFacts.

(** ** Flows through the payment gate *)

Module GateFlows.
Import PaymentManager GateRule FlowRule.

Lemma In_values_set {V : Type} (k : string) (v : V) (d : PyDict.t V) :
  In v (PyDict.values (PyDict.set k v d)).
Proof.
  induction d as [|[k' v'] d IH]; cbn; [now left|].
  destruct (String.eqb k k'); cbn; [now left|now right].
Qed.

Lemma nth_error_update_nth {A : Type} (n : nat) (x : A) (l : list A) :
  (n < List.length l)%nat -> nth_error (update_nth n x l) n = Some x.
Proof.
  revert n. induction l as [|y l IH]; intros n Hn; cbn in Hn; [lia|].
  destruct n as [|n]; cbn; [reflexivity|]. apply IH. lia.
Qed.

(** A payment on record grants access and changes nothing. *)
Lemma check_grants_paid (self : t) (now : Z) (context_id requester_did : string) :
  paid self context_id requester_did ->
  check_payment_for_context self now context_id requester_did
  = Ok (None, self).
Proof.
  intros Hp. apply PaymentGate.already_paid_spec in Hp.
  unfold check_payment_for_context.
  destruct (PyDict.get context_id (payment_requirements self));
    [|reflexivity].
  rewrite PaymentGate.requirement_is_expired. cbn [bind].
  destruct (match PaymentRequirement.expires t0 with
            | None => false
            | Some e => now >? instant e
            end); [reflexivity|].
  now rewrite Hp.
Qed.

(** X12.  A receipt recorded for a context and then verified with
    success unlocks that context for its payer: every later
    [check_payment_for_context] of that payer for that context grants
    access and changes nothing, channels included. *)
Theorem confirmed_receipt_unlocks `{Primitives} `{PaymentVerifier}
    (self s1 s2 : t) (clk : clock) (requirement : PaymentRequirement.t)
    (payer_did transaction_hash context_id : string) (r : nat) :
  create_payment_receipt self clk requirement payer_did transaction_hash
    (Some context_id) = (r, s1) ->
  verify_payment_at s1 r = Some (true, s2) ->
  forall now,
    check_payment_for_context s2 now context_id payer_did = Ok (None, s2).
Proof.
  intros Hc Hv now. apply check_grants_paid.
  unfold create_payment_receipt in Hc. injection Hc as <- <-.
  unfold verify_payment_at in Hv.
  cbn [receipt_objects with_receipts payment_receipts] in Hv.
  rewrite Receipts.nth_error_snoc in Hv.
  destruct (verify_payment _ _) as [verified receipt'] eqn:Ev.
  injection Hv as -> <-.
  unfold verify_payment in Ev.
  destruct (find _ _); [|discriminate].
  match type of Ev with
  | (if ?b then _ else _) = _ => destruct b; [|discriminate]
  end.
  injection Ev as <-.
  eexists. split.
  - unfold receipts. cbn [receipt_objects with_receipts payment_receipts].
    apply in_flat_map. exists (List.length (receipt_objects self)).
    split; [apply In_values_set|].
    rewrite nth_error_update_nth by (rewrite length_app; cbn; lia).
    left. reflexivity.
  - repeat split.
Qed.

Lemma confirmed_receipt_unlocks_witness :
  exists r s1 s2,
    @create_payment_receipt Sample.primitives Sample.micro_manager
      Sample.clock1 Scenario.btc_requirement "did:psinet:carol" "tx-9"
      (Some "ctx-a") = (r, s1) /\
    @verify_payment_at placeholder_verifier s1 r = Some (true, s2) /\
    check_payment_for_context s2 5000 "ctx-a" "did:psinet:carol"
    = Ok (None, s2).
Proof.
  do 3 eexists. split; [reflexivity|].
  split; [vm_compute; reflexivity|].
  eapply (@confirmed_receipt_unlocks Sample.primitives placeholder_verifier
            Sample.micro_manager _ _ Sample.clock1 Scenario.btc_requirement
            "did:psinet:carol" "tx-9" "ctx-a").
  - reflexivity.
  - vm_compute. reflexivity.
Defined.

(** X13.  The verifier the module ships looks at nothing: a receipt is
    confirmed exactly when some registered requirement has its currency
    and the currency is bitcoin, ethereum, lightning or arweave_ar,
    whatever its transaction hash and amount; receipts in custom_token
    or ipfs_filecoin are never confirmed. *)
Theorem shipped_verifier_accepts_unchecked (self : t)
    (receipt : PaymentReceipt.t) :
  fst (@verify_payment placeholder_verifier self receipt) = true <->
  (exists requirement,
      In requirement (PyDict.values (payment_requirements self)) /\
      PaymentRequirement.currency requirement
      = PaymentReceipt.currency receipt) /\
  In (PaymentReceipt.currency receipt) verifiable_currencies.
Proof.
  unfold verify_payment, verifiable_currencies.
  destruct (find _ (PyDict.values (payment_requirements self)))
    as [requirement|] eqn:Ef.
  - apply find_some in Ef. destruct Ef as [Hin He].
    apply String.eqb_eq in He.
    cbn [verify_bitcoin_payment verify_ethereum_payment
           verify_lightning_payment verify_arweave_payment
           placeholder_verifier PaymentMethod.value].
    destruct (String.eqb_spec (PaymentReceipt.currency receipt) "bitcoin")
      as [E1|E1].
    { cbn. split; [|reflexivity]. intros _. split; [eauto|]. now left. }
    destruct (String.eqb_spec (PaymentReceipt.currency receipt) "ethereum")
      as [E2|E2].
    { cbn. split; [|reflexivity]. intros _. split; [eauto|].
      right. now left. }
    destruct (String.eqb_spec (PaymentReceipt.currency receipt) "lightning")
      as [E3|E3].
    { cbn. split; [|reflexivity]. intros _. split; [eauto|].
      right. right. now left. }
    destruct (String.eqb_spec (PaymentReceipt.currency receipt) "arweave_ar")
      as [E4|E4].
    { cbn. split; [|reflexivity]. intros _. split; [eauto|].
      right. right. right. now left. }
    cbn. split; [discriminate|].
    intros (_ & [E|[E|[E|[E|[]]]]]); congruence.
  - cbn. split; [discriminate|].
    intros ((requirement & Hin & He) & _). exfalso.
    apply (find_none _ _ Ef) in Hin. apply String.eqb_neq in Hin.
    contradiction.
Qed.

(** With a requirement in force, no payment on record and no eligible
    channel, the answer is the 402 response. *)
Lemma check_requires_payment (self : t) (now : Z)
    (context_id requester_did : string) (requirement : PaymentRequirement.t) :
  PyDict.get context_id (payment_requirements self) = Some requirement ->
  ~ lapsed self now context_id ->
  ~ paid self context_id requester_did ->
  ~ covered self context_id requester_did ->
  check_payment_for_context self now context_id requester_did
  = Ok (Some (payment_required self requirement), self).
Proof.
  intros Hg Hl Hp Hc. unfold check_payment_for_context. rewrite Hg.
  rewrite PaymentGate.requirement_is_expired. cbn [bind].
  pose proof (PaymentGate.lapsed_iff self now context_id requirement Hg) as Hli.
  destruct (match PaymentRequirement.expires requirement with
            | None => false
            | Some e => now >? instant e
            end); [exfalso; apply Hl, Hli; reflexivity|].
  pose proof (PaymentGate.already_paid_spec self context_id requester_did)
    as Hpi.
  destruct (existsb _ (receipts self));
    [exfalso; apply Hp, Hpi; reflexivity|].
  destruct (pay_via_channel _ _ (payment_channels self)) as [channels'|] eqn:Ep;
    [|reflexivity].
  exfalso. apply Hc. apply PaymentGate.pay_via_channel_some in Ep.
  destruct Ep as (pre & k & channel & rest & Hch & _ & Hcov & _).
  apply PaymentGate.channel_covers_spec in Hcov.
  exists requirement, channel. split; [exact Hg|]. split; [|exact Hcov].
  rewrite Hch. unfold PyDict.values. rewrite map_app. apply in_or_app.
  right. now left.
Qed.

(** X14.  A context priced with a non-zero [expires_in_hours] is gated
    up to and including the instant of creation plus that many hours:
    a requester with no payment on record and no eligible channel gets
    the 402 response carrying the new requirement.  After that instant
    everyone is granted access and nothing changes. *)
Theorem priced_context_gated_until_expiry (self s1 : t) (clk : clock)
    (context_id : string) (pricing_model : PricingModel.t)
    (amount : PyDecimal.t) (currency : PaymentMethod.t)
    (recipient_address : string) (h : Z) (description : option string)
    (requirement : PaymentRequirement.t) :
  create_payment_requirement self clk context_id pricing_model amount
    currency recipient_address (Some h) description = (requirement, s1) ->
  h <> 0 ->
  forall now requester_did,
    (now <= utcnow clk + hours h ->
     ~ paid s1 context_id requester_did ->
     ~ covered s1 context_id requester_did ->
     check_payment_for_context s1 now context_id requester_did
     = Ok (Some (payment_required s1 requirement), s1)) /\
    (now > utcnow clk + hours h ->
     check_payment_for_context s1 now context_id requester_did
     = Ok (None, s1)).
Proof.
  intros Hc Hh now requester_did.
  unfold create_payment_requirement in Hc.
  apply Z.eqb_neq in Hh. rewrite Hh in Hc. injection Hc as <- <-.
  match goal with
  | |- context [with_payment_requirements (PyDict.set _ ?r _) _] =>
      set (req := r)
  end.
  set (s1 := with_payment_requirements _ self).
  assert (Hg : PyDict.get context_id (payment_requirements s1) = Some req)
    by apply PyDictFacts.get_set_same.
  split.
  - intros Hn Hp Hcov. apply check_requires_payment; try assumption.
    intros Hl. apply (PaymentGate.lapsed_iff s1 now context_id req Hg) in Hl.
    cbn in Hl. apply Z.gtb_lt in Hl. lia.
  - intros Hn. unfold check_payment_for_context. rewrite Hg.
    rewrite PaymentGate.requirement_is_expired. cbn [bind].
    cbn [PaymentRequirement.expires req instant].
    destruct (Z.gtb_spec now (utcnow clk + hours h)); [reflexivity|lia].
Qed.

Lemma priced_context_gated_until_expiry_witness :
  exists requirement s1,
    create_payment_requirement Sample.manager0 Sample.clock0 "ctx-a"
      PricingModel.PAY_PER_ACCESS (PyDecimal.mk 1 (-4))
      PaymentMethod.BITCOIN "addr" (Some 24) None = (requirement, s1) /\
    check_payment_for_context s1 (1000 + hours 24 + 1) "ctx-a"
      "did:psinet:bob" = Ok (None, s1).
Proof.
  do 2 eexists. split; [reflexivity|].
  eapply (priced_context_gated_until_expiry Sample.manager0 _ Sample.clock0
            "ctx-a" PricingModel.PAY_PER_ACCESS (PyDecimal.mk 1 (-4))
            PaymentMethod.BITCOIN "addr" 24 None).
  - reflexivity.
  - discriminate.
  - vm_compute. reflexivity.
Defined.

(** X15.  [expires_in_hours] of zero or [None] means no expiry, not
    immediate expiry: the context stays gated at every instant for a
    requester with no payment on record and no eligible channel. *)
Theorem price_without_expiry_never_lapses (self s1 : t) (clk : clock)
    (context_id : string) (pricing_model : PricingModel.t)
    (amount : PyDecimal.t) (currency : PaymentMethod.t)
    (recipient_address : string) (expires_in_hours : option Z)
    (description : option string) (requirement : PaymentRequirement.t) :
  create_payment_requirement self clk context_id pricing_model amount
    currency recipient_address expires_in_hours description
  = (requirement, s1) ->
  expires_in_hours = None \/ expires_in_hours = Some 0 ->
  PaymentRequirement.expires requirement = None /\
  forall now requester_did,
    ~ paid s1 context_id requester_did ->
    ~ covered s1 context_id requester_did ->
    check_payment_for_context s1 now context_id requester_did
    = Ok (Some (payment_required s1 requirement), s1).
Proof.
  intros Hc He. unfold create_payment_requirement in Hc.
  assert (Hx : match expires_in_hours with
               | Some h =>
                   if h =? 0 then None
                   else Some {| instant := utcnow clk + hours h;
                                zulu := true |}
               | None => None
               end = None)
    by (destruct He as [->| ->]; reflexivity).
  rewrite Hx in Hc. injection Hc as <- <-.
  split; [reflexivity|]. intros now requester_did Hp Hcov.
  apply check_requires_payment; try assumption.
  - apply PyDictFacts.get_set_same.
  - intros (r & e & Hr & Hre & _).
    cbn [payment_requirements with_payment_requirements] in Hr.
    rewrite PyDictFacts.get_set_same in Hr. injection Hr as <-.
    discriminate.
Qed.

Lemma price_without_expiry_never_lapses_witness :
  exists requirement s1,
    create_payment_requirement Sample.manager0 Sample.clock0 "ctx-a"
      PricingModel.PAY_PER_ACCESS (PyDecimal.mk 1 (-4))
      PaymentMethod.BITCOIN "addr" (Some 0) None = (requirement, s1) /\
    PaymentRequirement.expires requirement = None.
Proof.
  do 2 eexists. split; [reflexivity|].
  eapply (price_without_expiry_never_lapses Sample.manager0 _ Sample.clock0
            "ctx-a" PricingModel.PAY_PER_ACCESS (PyDecimal.mk 1 (-4))
            PaymentMethod.BITCOIN "addr" (Some 0) None).
  - reflexivity.
  - right. reflexivity.
Defined.

(** X16.  Pricing a context replaces the requirement of that context
    only: for every other context the gate answers as before and
    charges the same channel. *)
Theorem pricing_leaves_other_contexts (self s1 : t) (clk : clock)
    (context_id : string) (pricing_model : PricingModel.t)
    (amount : PyDecimal.t) (currency : PaymentMethod.t)
    (recipient_address : string) (expires_in_hours : option Z)
    (description : option string) (requirement : PaymentRequirement.t)
    (other requester_did : string) (now : Z) :
  create_payment_requirement self clk context_id pricing_model amount
    currency recipient_address expires_in_hours description
  = (requirement, s1) ->
  other <> context_id ->
  PyDict.get context_id (payment_requirements s1) = Some requirement /\
  PyDict.get other (payment_requirements s1)
  = PyDict.get other (payment_requirements self) /\
  check_payment_for_context s1 now other requester_did
  = match check_payment_for_context self now other requester_did with
    | Ok (response, self') =>
        Ok (response,
            with_payment_requirements (payment_requirements s1) self')
    | Raise e => Raise e
    end.
Proof.
  intros Hc Hne. unfold create_payment_requirement in Hc.
  injection Hc as <- <-.
  match goal with
  | |- context [with_payment_requirements (PyDict.set _ ?r _) _] =>
      set (req := r)
  end.
  split; [apply PyDictFacts.get_set_same|].
  split; [now apply PyDictFacts.get_set_other|].
  unfold check_payment_for_context.
  cbn [payment_requirements with_payment_requirements].
  rewrite PyDictFacts.get_set_other by exact Hne.
  destruct (PyDict.get other (payment_requirements self)) as [r|];
    [|reflexivity].
  rewrite PaymentGate.requirement_is_expired. cbn [bind].
  destruct (match PaymentRequirement.expires r with
            | None => false
            | Some e => now >? instant e
            end); [reflexivity|].
  change (receipts (with_payment_requirements
                      (PyDict.set context_id req (payment_requirements self))
                      self))
    with (receipts self).
  destruct (existsb _ (receipts self)); [reflexivity|].
  change (payment_channels
            (with_payment_requirements
               (PyDict.set context_id req (payment_requirements self)) self))
    with (payment_channels self).
  change (channel_covers
            (with_payment_requirements
               (PyDict.set context_id req (payment_requirements self)) self))
    with (channel_covers self).
  destruct (pay_via_channel _ _ (payment_channels self)); reflexivity.
Qed.

Lemma pricing_leaves_other_contexts_witness :
  exists requirement s1,
    create_payment_requirement Sample.micro_manager Sample.clock1 "ctx-b"
      PricingModel.PAY_PER_ACCESS (PyDecimal.mk 5 0)
      PaymentMethod.ETHEREUM "addr" (Some 24) None = (requirement, s1) /\
    PyDict.get "ctx-a" (payment_requirements s1)
    = PyDict.get "ctx-a" (payment_requirements Sample.micro_manager).
Proof.
  do 2 eexists. split; [reflexivity|].
  eapply (pricing_leaves_other_contexts Sample.micro_manager _ Sample.clock1
            "ctx-b" PricingModel.PAY_PER_ACCESS (PyDecimal.mk 5 0)
            PaymentMethod.ETHEREUM "addr" (Some 24) None _ "ctx-a"
            "did:psinet:bob" 2000).
  - reflexivity.
  - discriminate.
Defined.

(** The channel loop leaves in place every entry that fails its test. *)
Lemma pay_via_channel_keeps (covers : PaymentChannel.t -> bool)
    (amount : PyDecimal.t) (channels channels' : PyDict.t PaymentChannel.t)
    (k : string) (channel : PaymentChannel.t) :
  pay_via_channel covers amount channels = Some channels' ->
  PyDict.get k channels = Some channel ->
  covers channel = false ->
  PyDict.get k channels' = Some channel.
Proof.
  revert channels'.
  induction channels as [|[k0 c0] rest IH]; intros channels' Hp Hg Hc;
    [discriminate|].
  cbn [pay_via_channel] in Hp. cbn [PyDict.get] in Hg.
  destruct (covers c0) eqn:E0.
  - injection Hp as <-. cbn [PyDict.get].
    destruct (String.eqb k k0); [|exact Hg].
    injection Hg as ->. congruence.
  - destruct (pay_via_channel covers amount rest) as [rest'|];
      [|discriminate].
    injection Hp as <-. cbn [PyDict.get].
    destruct (String.eqb k k0); [exact Hg|]. now apply IH.
Qed.

(** A channel whose status is not "open" is never charged. *)
Lemma check_keeps_unopened_channel (self self' : t) (now : Z)
    (context_id requester_did k : string) (channel : PaymentChannel.t)
    (response : option X402Response.t) :
  PyDict.get k (payment_channels self) = Some channel ->
  PaymentChannel.status channel <> "open" ->
  check_payment_for_context self now context_id requester_did
  = Ok (response, self') ->
  PyDict.get k (payment_channels self') = Some channel.
Proof.
  intros Hg Hs. unfold check_payment_for_context.
  destruct (PyDict.get context_id (payment_requirements self))
    as [requirement|]; [|intros Hc; injection Hc as _ <-; exact Hg].
  rewrite PaymentGate.requirement_is_expired. cbn [bind].
  destruct (match PaymentRequirement.expires requirement with
            | None => false
            | Some e => now >? instant e
            end); [intros Hc; injection Hc as _ <-; exact Hg|].
  destruct (existsb _ (receipts self));
    [intros Hc; injection Hc as _ <-; exact Hg|].
  destruct (pay_via_channel _ _ (payment_channels self)) as [channels'|]
    eqn:Ep; intros Hc; injection Hc as _ <-; [|exact Hg].
  cbn [payment_channels with_payment_channels].
  eapply pay_via_channel_keeps; [exact Ep|exact Hg|].
  unfold channel_covers. apply String.eqb_neq in Hs. rewrite Hs.
  now rewrite andb_false_r.
Qed.

(** X17.  Once closed, a channel is never charged again: after
    [close_payment_channel] every [check_payment_for_context] leaves the
    channel as the closing left it, its balance the one it had when it
    was closed. *)
Theorem closed_channel_never_charged (self self' : t) (now : Z)
    (channel_id context_id requester_did : string)
    (channel : PaymentChannel.t) (response : option X402Response.t) :
  PyDict.get channel_id (payment_channels self) = Some channel ->
  check_payment_for_context (close_payment_channel self channel_id) now
    context_id requester_did = Ok (response, self') ->
  PyDict.get channel_id (payment_channels self')
  = Some (PaymentChannel.set_status "closed" channel) /\
  exists closed,
    PyDict.get channel_id (payment_channels self') = Some closed /\
    PaymentChannel.current_balance closed
    = PaymentChannel.current_balance channel /\
    PaymentChannel.status closed = "closed".
Proof.
  intros Hg Hc.
  assert (Hk : PyDict.get channel_id (payment_channels self')
               = Some (PaymentChannel.set_status "closed" channel)).
  { eapply check_keeps_unopened_channel; [| |exact Hc].
    - unfold close_payment_channel. rewrite Hg.
      cbn [payment_channels with_payment_channels].
      apply PyDictFacts.get_set_same.
    - cbn. discriminate. }
  split; [exact Hk|]. eexists. split; [exact Hk|]. split; reflexivity.
Qed.

Lemma closed_channel_never_charged_witness :
  exists channel self',
    PyDict.get "sha256:did:psinet:bob:did:psinet:alice:1.0"
      (payment_channels Sample.micro_manager) = Some channel /\
    check_payment_for_context
      (close_payment_channel Sample.micro_manager
         "sha256:did:psinet:bob:did:psinet:alice:1.0")
      2000 "ctx-a" "did:psinet:bob"
    = Ok (Some (payment_required Sample.micro_manager
                  {| PaymentRequirement.pricing_model := "pay_per_access";
                     PaymentRequirement.amount := PyDecimal.mk 1 (-4);
                     PaymentRequirement.currency := "bitcoin";
                     PaymentRequirement.recipient_address := "addr";
                     PaymentRequirement.expires := None;
                     PaymentRequirement.description :=
                       Some "Payment for context ctx-a";
                     PaymentRequirement.metadata :=
                       Some [("context_id", "ctx-a")] |}), self') /\
    PyDict.get "sha256:did:psinet:bob:did:psinet:alice:1.0"
      (payment_channels self')
    = Some (PaymentChannel.set_status "closed" channel).
Proof.
  do 2 eexists. split; [vm_compute; reflexivity|].
  split; [vm_compute; reflexivity|].
  eapply (closed_channel_never_charged Sample.micro_manager _ 2000
            "sha256:did:psinet:bob:did:psinet:alice:1.0" "ctx-a"
            "did:psinet:bob").
  - vm_compute. reflexivity.
  - vm_compute. reflexivity.
Defined.

Lemma set_twice {V : Type} (k : string) (v : V) (d : PyDict.t V) :
  PyDict.set k v (PyDict.set k v d) = PyDict.set k v d.
Proof.
  induction d as [|[k' v'] d IH]; cbn.
  - now rewrite String.eqb_refl.
  - destruct (String.eqb k k') eqn:E; cbn; rewrite E; [reflexivity|].
    now rewrite IH.
Qed.

Lemma closing_relation_refl (channel_id : string)
    (l : PyDict.t PaymentChannel.t) :
  Forall2
    (fun x y =>
       fst y = fst x /\
       PaymentChannel.current_balance (snd y)
       = PaymentChannel.current_balance (snd x) /\
       PaymentChannel.total_capacity (snd y)
       = PaymentChannel.total_capacity (snd x) /\
       (fst x <> channel_id ->
        PaymentChannel.status (snd y) = PaymentChannel.status (snd x)))
    l l.
Proof.
  induction l as [|x l IH]; [constructor|].
  constructor; [repeat split|exact IH].
Qed.

(** X18.  Closing is safe to repeat and to misaddress: an unknown
    channel id changes nothing, closing twice is closing once, and
    closing never touches a balance, a capacity or another channel's
    status. *)
Theorem close_payment_channel_edges (self : t) (channel_id : string) :
  (PyDict.get channel_id (payment_channels self) = None ->
   close_payment_channel self channel_id = self) /\
  close_payment_channel (close_payment_channel self channel_id) channel_id
  = close_payment_channel self channel_id /\
  Forall2
    (fun x y =>
       fst y = fst x /\
       PaymentChannel.current_balance (snd y)
       = PaymentChannel.current_balance (snd x) /\
       PaymentChannel.total_capacity (snd y)
       = PaymentChannel.total_capacity (snd x) /\
       (fst x <> channel_id ->
        PaymentChannel.status (snd y) = PaymentChannel.status (snd x)))
    (payment_channels self)
    (payment_channels (close_payment_channel self channel_id)).
Proof.
  split; [|split].
  - intros Hg. unfold close_payment_channel. now rewrite Hg.
  - unfold close_payment_channel.
    destruct (PyDict.get channel_id (payment_channels self)) as [channel|]
      eqn:Hg.
    + cbn [payment_channels with_payment_channels].
      rewrite PyDictFacts.get_set_same.
      unfold with_payment_channels.
      cbn [node_did storage_dir payment_requirements receipt_objects
             payment_receipts payment_channels wallet_addresses].
      change (PaymentChannel.set_status "closed"
                (PaymentChannel.set_status "closed" channel))
        with (PaymentChannel.set_status "closed" channel).
      now rewrite set_twice.
    + now rewrite Hg.
  - unfold close_payment_channel.
    destruct (PyDict.get channel_id (payment_channels self)) as [channel|]
      eqn:Hg.
    + cbn [payment_channels with_payment_channels].
      revert Hg. induction (payment_channels self) as [|[k c] l IH];
        cbn; [discriminate|].
      destruct (String.eqb_spec channel_id k) as [->|Hne]; intros Hg.
      * injection Hg as ->. constructor.
        -- cbn. repeat split. intros Hk. contradiction.
        -- apply closing_relation_refl.
      * constructor; [cbn; repeat split|]. now apply IH.
    + apply closing_relation_refl.
Qed.







Lemma set_fresh {V : Type} (k : string) (v : V) (d : PyDict.t V) :
  PyDict.get k d = None -> PyDict.set k v d = (d ++ [(k, v)])%list.
Proof.
  induction d as [|[k' v'] d IH]; cbn; [reflexivity|].
  destruct (String.eqb k k'); [discriminate|].
  intros Hg. now rewrite IH.
Qed.

Lemma length_update_nth {A : Type} (n : nat) (x : A) (l : list A) :
  List.length (update_nth n x l) = List.length l.
Proof.
  revert n. induction l as [|y l IH]; intros [|n]; cbn; auto.
Qed.

Lemma nth_error_update_nth_other {A : Type} (n i : nat) (x : A)
    (l : list A) :
  i <> n -> nth_error (update_nth n x l) i = nth_error l i.
Proof.
  revert n i. induction l as [|y l IH]; intros [|n] [|i] Hne; cbn;
    try reflexivity; try contradiction.
  apply IH. lia.
Qed.

Lemma flat_map_ext_on {A B : Type} (f g : A -> list B) (l : list A) :
  (forall a, In a l -> f a = g a) -> flat_map f l = flat_map g l.
Proof.
  induction l as [|a l IH]; intros Hfg; [reflexivity|]. cbn.
  rewrite (Hfg a) by now left. f_equal. apply IH.
  intros b Hb. apply Hfg. now right.
Qed.

Lemma Forall_values_set_nat (P : nat -> Prop) (k : string) (v : nat)
    (d : PyDict.t nat) :
  P v -> Forall P (PyDict.values d) ->
  Forall P (PyDict.values (PyDict.set k v d)).
Proof.
  intros Hv. induction d as [|[k' v'] d IH]; cbn; intros Hd.
  - constructor; [exact Hv|constructor].
  - inversion Hd; subst. destruct (String.eqb k k'); cbn.
    + constructor; assumption.
    + constructor; [assumption|]. now apply IH.
Qed.

(** Calls never leave a registered reference without its object. *)
Lemma step_refs_valid `{Primitives} `{PaymentVerifier} (self : t)
    (ev : clock * call) :
  refs_valid self -> refs_valid (step self ev).
Proof.
  intros Hv. unfold step.
  destruct (snd ev) as [context_id pricing_model amount currency
                          recipient_address expires_in_hours description
                       | payment_requirement payer_did transaction_hash
                           context_id
                       | r | context_id requester_did
                       | payer_did total_capacity currency expires_in_days
                       | channel_id].
  - exact Hv.
  - unfold refs_valid in *. cbn. rewrite length_app. cbn.
    apply Forall_values_set_nat; [lia|].
    eapply Forall_impl; [|exact Hv]. cbn. intros; lia.
  - unfold verify_payment_at.
    destruct (nth_error (receipt_objects self) r) as [receipt|];
      [|exact Hv].
    destruct (verify_payment self receipt). unfold refs_valid in *. cbn.
    now rewrite length_update_nth.
  - unfold check_payment_for_context.
    destruct (PyDict.get context_id (payment_requirements self));
      [|exact Hv].
    rewrite PaymentGate.requirement_is_expired. cbn [bind].
    destruct (match PaymentRequirement.expires t0 with
              | None => false
              | Some e => utcnow (fst ev) >? instant e
              end); [exact Hv|].
    destruct (existsb _ _); [exact Hv|].
    destruct (pay_via_channel _ _ _); exact Hv.
  - exact Hv.
  - unfold close_payment_channel.
    destruct (PyDict.get channel_id (payment_channels self)); exact Hv.
Qed.

Lemma reachable_refs_valid `{Primitives} `{PaymentVerifier} (self : t) :
  reachable self -> refs_valid self.
Proof.
  intros (node_did & storage_dir & trace & ->). unfold run.
  assert (Hi : refs_valid (init node_did storage_dir)) by constructor.
  revert Hi. generalize (init node_did storage_dir).
  induction trace as [|ev trace IH]; intros m Hm; [exact Hm|].
  cbn [fold_left]. apply IH. now apply step_refs_valid.
Qed.

(** X21.  A receipt recorded without a context id, the default of
    [create_payment_receipt], unlocks nothing even once confirmed: on a
    manager reached through calls, and the receipt id being new, every
    check is answered as before the receipt was recorded and verified,
    and charges the same channel. *)
Theorem receipt_without_context_unlocks_nothing `{Primitives}
    `{PaymentVerifier} (self s1 s2 : t) (clk : clock)
    (requirement : PaymentRequirement.t)
    (payer_did transaction_hash : string) (r : nat) (verified : bool) :
  reachable self ->
  create_payment_receipt self clk requirement payer_did transaction_hash None
  = (r, s1) ->
  PyDict.get (sha256 (payer_did ++ ":" ++ transaction_hash ++ ":"
                        ++ time_time clk))
             (payment_receipts self) = None ->
  verify_payment_at s1 r = Some (verified, s2) ->
  forall now context_id requester_did,
    check_payment_for_context s2 now context_id requester_did
    = match check_payment_for_context self now context_id requester_did with
      | Ok (response, self') =>
          Ok (response,
              with_receipts (receipt_objects s2) (payment_receipts s2) self')
      | Raise e => Raise e
      end.
Proof.
  intros Hr Hc Hfresh Hv now context_id requester_did.
  apply reachable_refs_valid in Hr.
  unfold create_payment_receipt in Hc. injection Hc as <- <-.
  unfold verify_payment_at in Hv.
  cbn [receipt_objects with_receipts payment_receipts] in Hv.
  rewrite Receipts.nth_error_snoc in Hv.
  destruct (verify_payment _ _) as [verified' receipt'] eqn:Ev.
  injection Hv as <- <-.
  assert (Hctx : PaymentReceipt.context_id receipt' = None).
  { unfold verify_payment in Ev. destruct (find _ _).
    - match type of Ev with
      | (if ?b then _ else _) = _ => destruct b
      end; injection Ev as _ <-; reflexivity.
    - injection Ev as _ <-. reflexivity. }
  set (heap2 := update_nth (List.length (receipt_objects self)) receipt'
                  (receipt_objects self ++ [_])).
  set (dict2 := PyDict.set _ _ (payment_receipts self)).
  set (s2 := with_receipts heap2 dict2 _).
  assert (Hex : existsb (already_paid context_id requester_did) (receipts s2)
                = existsb (already_paid context_id requester_did)
                          (receipts self)).
  { unfold receipts, s2. cbn [receipt_objects payment_receipts with_receipts].
    unfold dict2. rewrite (set_fresh _ _ _ Hfresh).
    unfold PyDict.values. rewrite map_app, flat_map_app, existsb_app.
    cbn [map flat_map snd app].
    unfold heap2.
    rewrite nth_error_update_nth by (rewrite length_app; cbn; lia).
    cbn [existsb app]. unfold already_paid at 2. rewrite Hctx.
    cbn [opt_str_eqb andb orb]. rewrite orb_false_r.
    f_equal. apply flat_map_ext_on.
    intros i Hi. unfold refs_valid in Hr. rewrite Forall_forall in Hr.
    specialize (Hr i Hi).
    rewrite nth_error_update_nth_other by lia.
    now rewrite nth_error_app1 by lia. }
  unfold check_payment_for_context.
  change (payment_requirements s2) with (payment_requirements self).
  destruct (PyDict.get context_id (payment_requirements self))
    as [rq|]; [|reflexivity].
  rewrite PaymentGate.requirement_is_expired. cbn [bind].
  destruct (match PaymentRequirement.expires rq with
            | None => false
            | Some e => now >? instant e
            end); [reflexivity|].
  rewrite Hex.
  destruct (existsb _ (receipts self)); [reflexivity|].
  change (payment_channels s2) with (payment_channels self).
  change (channel_covers s2) with (channel_covers self).
  destruct (pay_via_channel _ _ (payment_channels self)); reflexivity.
Qed.

Lemma receipt_without_context_unlocks_nothing_witness :
  exists r s1 s2,
    @create_payment_receipt Sample.primitives Sample.micro_manager
      Sample.clock1 Scenario.btc_requirement "did:psinet:carol" "tx-9" None
    = (r, s1) /\
    @verify_payment_at placeholder_verifier s1 r = Some (true, s2) /\
    check_payment_for_context s2 2000 "ctx-a" "did:psinet:carol"
    = match check_payment_for_context Sample.micro_manager 2000 "ctx-a"
              "did:psinet:carol" with
      | Ok (response, self') =>
          Ok (response,
              with_receipts (receipt_objects s2) (payment_receipts s2) self')
      | Raise e => Raise e
      end.
Proof.
  do 3 eexists. split; [reflexivity|].
  split; [vm_compute; reflexivity|].
  eapply (@receipt_without_context_unlocks_nothing Sample.primitives
            placeholder_verifier Sample.micro_manager _ _ Sample.clock1
            Scenario.btc_requirement "did:psinet:carol" "tx-9" _ true).
  - exists "did:psinet:alice", ".psinet/payments".
    eexists. reflexivity.
  - reflexivity.
  - vm_compute. reflexivity.
  - vm_compute. reflexivity.
Defined.

End GateFlows.

(** ** Invoices and statistics *)

Module BillingFacts.
Import PaymentManager FlowRule Billing.

(** X22.  An invoice copies the amount text unparsed and takes the
    recipient address from the manager's wallet table, the empty text
    when the currency has no entry.  Its payment URI is, for each of
    the six payment methods, the currency's own name, a colon, the
    address, and the amount under the key [amount], or [value] for
    ethereum. *)
Theorem payment_invoice_uri `{Primitives} (self : t) (clk : clock)
    (context_id amount : string) (currency : PaymentMethod.t)
    (description : string) :
  let invoice :=
    generate_payment_invoice self clk context_id amount currency description
  in
  Invoice.recipient_address invoice
  = match PyDict.get (PaymentMethod.value currency) (wallet_addresses self)
    with
    | Some address => address
    | None => ""
    end /\
  Invoice.amount invoice = amount /\
  Invoice.qr_code_data invoice
  = (PaymentMethod.value currency ++ ":"
       ++ Invoice.recipient_address invoice
       ++ match currency with
          | PaymentMethod.ETHEREUM => "?value="
          | _ => "?amount="
          end
       ++ amount)%string.
Proof.
  cbn zeta. split; [reflexivity|]. split; [reflexivity|].
  destruct currency; reflexivity.
Qed.

Lemma filter_split_length {A : Type} (f : A -> bool) (l : list A) :
  (List.length (filter f l)
   + List.length (filter (fun x => negb (f x)) l))%nat
  = List.length l.
Proof.
  induction l as [|x l IH]; [reflexivity|]. cbn.
  destruct (f x); cbn; lia.
Qed.

Lemma receipts_length (self : t) :
  refs_valid self ->
  List.length (receipts self) = List.length (payment_receipts self).
Proof.
  unfold refs_valid, receipts, PyDict.values.
  induction (payment_receipts self) as [|[k r] d IH]; intros Hv;
    [reflexivity|].
  cbn in *. inversion Hv; subst.
  destruct (nth_error (receipt_objects self) r) eqn:E.
  - cbn. f_equal. now apply IH.
  - apply nth_error_None in E. lia.
Qed.

(** X23.  In the statistics of a manager reached through calls,
    [pending_payments] is the number of registered receipts whose status
    is anything but "confirmed": a FAILED receipt is counted as
    pending.  The two counts add up to [total_receipts]. *)
Theorem pending_counts_all_unconfirmed `{Primitives} `{PaymentVerifier}
    (self : t) :
  reachable self ->
  let stats := get_pricing_stats self in
  PricingStats.pending_payments stats
  = Z.of_nat (List.length
                (filter (fun receipt => negb (is_confirmed receipt))
                        (receipts self))) /\
  PricingStats.confirmed_payments stats + PricingStats.pending_payments stats
  = PricingStats.total_receipts stats /\
  PricingStats.total_receipts stats = Z.of_nat (List.length (receipts self)).
Proof.
  intros Hr. apply GateFlows.reachable_refs_valid in Hr.
  apply receipts_length in Hr. cbn zeta. unfold get_pricing_stats.
  cbn [PricingStats.pending_payments PricingStats.confirmed_payments
         PricingStats.total_receipts].
  pose proof (filter_split_length is_confirmed (receipts self)) as Hs.
  rewrite <- Hr. repeat split; lia.
Qed.

Lemma pending_counts_all_unconfirmed_witness :
  PricingStats.pending_payments
    (get_pricing_stats (snd Sample.repriced_run))
  = Z.of_nat
      (List.length
         (filter (fun receipt => negb (is_confirmed receipt))
                 (receipts (snd Sample.repriced_run)))).
Proof.
  apply (@pending_counts_all_unconfirmed Sample.primitives
           placeholder_verifier (snd Sample.repriced_run)).
  exists "did:psinet:alice", ".psinet/payments".
  exists [ (Sample.clock0,
            Create_payment_requirement "ctx-a" PricingModel.PAY_PER_ACCESS
              (PyDecimal.mk 1 (-4)) PaymentMethod.BITCOIN "addr" (Some 24)
              None);
           (Sample.clock1,
            Create_payment_receipt
              (fst (create_payment_requirement Sample.manager0 Sample.clock0
                      "ctx-a" PricingModel.PAY_PER_ACCESS
                      (PyDecimal.mk 1 (-4)) PaymentMethod.BITCOIN "addr"
                      (Some 24) None))
              "did:psinet:bob" "tx-1" (Some "ctx-a"));
           (Sample.clock2,
            Create_payment_requirement "ctx-a" PricingModel.PAY_PER_ACCESS
              (PyDecimal.mk 1 (-2)) PaymentMethod.ETHEREUM "addr" (Some 24)
              None) ].
  vm_compute. reflexivity.
Defined.

End BillingFacts.

(** ** Canonical serialisation *)

Module CanonicalJson.

Lemma ascii_compare_lt_trans (a b c : ascii) :
  Ascii.compare a b = Lt -> Ascii.compare b c = Lt -> Ascii.compare a c = Lt.
Proof.
  unfold Ascii.compare. rewrite !N.compare_lt_iff. lia.
Qed.

Lemma compare_lt_trans (s1 : string) :
  forall s2 s3,
    String.compare s1 s2 = Lt -> String.compare s2 s3 = Lt ->
    String.compare s1 s3 = Lt.
Proof.
  induction s1 as [|a s1 IH]; intros [|b s2] [|c s3]; cbn;
    try discriminate; try reflexivity.
  destruct (Ascii.compare a b) eqn:Eab; try discriminate;
    destruct (Ascii.compare b c) eqn:Ebc; try discriminate; intros H1 H2.
  - apply Ascii.compare_eq_iff in Eab, Ebc. subst.
    assert (Hcc : Ascii.compare c c = Eq)
      by (unfold Ascii.compare; apply N.compare_refl).
    rewrite Hcc. now apply (IH s2).
  - apply Ascii.compare_eq_iff in Eab. subst. now rewrite Ebc.
  - apply Ascii.compare_eq_iff in Ebc. subst. now rewrite Eab.
  - now rewrite (ascii_compare_lt_trans a b c).
Qed.

Lemma leb_trans (s1 s2 s3 : string) :
  String.leb s1 s2 = true -> String.leb s2 s3 = true ->
  String.leb s1 s3 = true.
Proof.
  unfold String.leb.
  destruct (String.compare s1 s2) eqn:E12; try discriminate;
    destruct (String.compare s2 s3) eqn:E23; try discriminate; intros _ _.
  - apply String.compare_eq_iff in E12, E23. subst.
    destruct (String.compare s3 s3) eqn:E; try reflexivity.
    pose proof (String.compare_antisym s3 s3) as Ha. rewrite E in Ha.
    discriminate Ha.
  - apply String.compare_eq_iff in E12. subst. now rewrite E23.
  - apply String.compare_eq_iff in E23. subst. now rewrite E12.
  - now rewrite (compare_lt_trans s1 s2 s3).
Qed.

Lemma leb_false_flip (s1 s2 : string) :
  String.leb s1 s2 = false -> String.leb s2 s1 = true.
Proof.
  intros H. destruct (String.leb_total s1 s2); congruence.
Qed.

Lemma leb_distinct (s1 s2 : string) :
  s1 <> s2 -> String.leb s1 s2 = true -> String.leb s2 s1 = false.
Proof.
  intros Hne H. destruct (String.leb s2 s1) eqn:E; [|reflexivity].
  exfalso. apply Hne. now apply String.leb_antisym.
Qed.

(** Two items with different keys can be inserted in either order. *)
Lemma insert_item_comm (x y : string * string) (l : list (string * string)) :
  fst x <> fst y ->
  Json.insert_item x (Json.insert_item y l)
  = Json.insert_item y (Json.insert_item x l).
Proof.
  intros Hne.
  induction l as [|z l IH]; cbn [Json.insert_item].
  - destruct (String.leb (fst x) (fst y)) eqn:E1.
    + now rewrite (leb_distinct _ _ Hne E1).
    + now rewrite (leb_false_flip _ _ E1).
  - destruct (String.leb (fst y) (fst z)) eqn:Eyz;
      destruct (String.leb (fst x) (fst z)) eqn:Exz;
      cbn [Json.insert_item].
    + destruct (String.leb (fst x) (fst y)) eqn:E1.
      * rewrite (leb_distinct _ _ Hne E1). now rewrite ?Exz, ?Eyz.
      * rewrite (leb_false_flip _ _ E1). now rewrite ?Exz, ?Eyz.
    + assert (E1 : String.leb (fst x) (fst y) = false).
      { destruct (String.leb (fst x) (fst y)) eqn:E; [|reflexivity].
        rewrite (leb_trans _ _ _ E Eyz) in Exz. discriminate. }
      rewrite ?E1, ?Exz, ?Eyz. reflexivity.
    + assert (E1 : String.leb (fst y) (fst x) = false).
      { destruct (String.leb (fst y) (fst x)) eqn:E; [|reflexivity].
        rewrite (leb_trans _ _ _ E Exz) in Eyz. discriminate. }
      rewrite ?E1, ?Exz, ?Eyz. reflexivity.
    + rewrite ?Exz, ?Eyz. now rewrite IH.
Qed.

Lemma sort_items_permutation (l l' : list (string * string)) :
  Permutation l l' -> NoDup (map fst l) ->
  Json.sort_items l = Json.sort_items l'.
Proof.
  unfold Json.sort_items.
  induction 1 as [|x l l' Hp IH|x y l|l l' l'' Hp1 IH1 Hp2 IH2]; intros Hn.
  - reflexivity.
  - cbn. inversion Hn; subst. now rewrite IH.
  - cbn. apply insert_item_comm. inversion Hn as [|? ? Hin _]; subst.
    intros E. apply Hin. left. now symmetry.
  - rewrite IH1 by exact Hn. apply IH2.
    eapply Permutation_NoDup; [|exact Hn]. now apply Permutation_map.
Qed.

(** A dictionary is serialised the same whatever the insertion order of
    its keys. *)
Lemma dumps_dict_permutation (d d' : list (string * Json.t)) :
  Permutation d d' -> NoDup (map fst d) ->
  Json.dumps (Json.JDict d) = Json.dumps (Json.JDict d').
Proof.
  intros Hp Hn. cbn [Json.dumps].
  rewrite (sort_items_permutation
             (map (fun kv => (fst kv, Json.dumps (snd kv))) d)
             (map (fun kv => (fst kv, Json.dumps (snd kv))) d')).
  - reflexivity.
  - now apply Permutation_map.
  - rewrite map_map. cbn [fst]. exact Hn.
Qed.

(** X24.  The content hash does not depend on the order in which the
    keys of the content were inserted: two units with the same type,
    owner, previous and timestamp whose contents hold the same items
    under distinct keys, in any order, have the same content hash. *)
Theorem content_hash_key_order `{Primitives} (u v : ContextUnit.t)
    (d d' : list (string * Json.t)) :
  ContextUnit.content u = Json.JDict d ->
  ContextUnit.content v = Json.JDict d' ->
  Permutation d d' -> NoDup (map fst d) ->
  ContextUnit.type u = ContextUnit.type v ->
  ContextUnit.owner u = ContextUnit.owner v ->
  ContextUnit.previous u = ContextUnit.previous v ->
  ContextUnit.timestamp u = ContextUnit.timestamp v ->
  ContextUnit.content_hash u = ContextUnit.content_hash v.
Proof.
  intros Hu Hv Hp Hn Ht Ho Hpr Hts.
  unfold ContextUnit.content_hash, ContextUnit.hashed_fields.
  rewrite !Ledger.dumps_hashed_fields.
  rewrite Hu, Hv, (dumps_dict_permutation d d' Hp Hn), Ht, Ho, Hpr, Hts.
  reflexivity.
Qed.

Lemma content_hash_key_order_witness :
  @ContextUnit.content_hash Sample.primitives
    (Scenario.draft_unit
       (Json.JDict [("memory", Json.JStr "x"); ("tags", Json.JList [])]))
  = @ContextUnit.content_hash Sample.primitives
      (Scenario.draft_unit
         (Json.JDict [("tags", Json.JList []); ("memory", Json.JStr "x")])).
Proof.
  apply (@content_hash_key_order Sample.primitives _ _
           [("memory", Json.JStr "x"); ("tags", Json.JList [])]
           [("tags", Json.JList []); ("memory", Json.JStr "x")]);
    try reflexivity.
  - apply perm_swap.
  - repeat constructor; cbn; intuition discriminate.
Defined.

End CanonicalJson.
